(** * Q-Collector translation services: request handling and statistics

    A shallow embedding of the two HTTP adapters that sit in front of the
    offline translation engine:

    - [Flask]   embeds [backend/services/argos-translate-server.py]
    - [FastAPI] embeds [docker/argos-translate/translate_service.py]

    Handlers are written in a small state/exception monad.  The state is the
    process-wide statistics dictionary together with a log of the calls made
    to the engine's [translate] operation; exceptions follow Python's
    [try]/[except]: a mutation made before a [raise] stays in place. *)

From Stdlib Require Import ZArith NArith QArith Qfield List Bool Ascii String Lia.
From Stdlib Require Import PrimFloat FloatOps SpecFloat.
Import ListNotations.

Open Scope Z_scope.

(** ** Python strings

    A [str] is a sequence of Unicode code points; [len] counts code points. *)

Module PyStr.

Definition pychar := N.
Definition pystr := list pychar.

(** A string literal of the source (ASCII only). *)
Definition lit (s : string) : pystr := map N_of_ascii (list_ascii_of_string s).

Definition dquote : pystr := [34%N].

(** [len(s)], for strings and for lists. *)
Definition len {A} (s : list A) : Z := Z.of_nat (List.length s).

(** Truth value of a [str]: non-empty. *)
Definition truthy (s : pystr) : bool :=
  match s with
  | [] => false
  | _ :: _ => true
  end.

(** [str.isspace] on one code point (CPython's [_PyUnicode_IsWhitespace]). *)
Definition isspace (c : pychar) : bool :=
  ((9 <=? c) && (c <=? 13) || (28 <=? c) && (c <=? 32)
   || (c =? 133) || (c =? 160) || (c =? 5760)
   || (8192 <=? c) && (c <=? 8202)
   || (c =? 8232) || (c =? 8233) || (c =? 8239) || (c =? 8287)
   || (c =? 12288))%N.

Fixpoint lstrip (s : pystr) : pystr :=
  match s with
  | [] => []
  | c :: r => if isspace c then lstrip r else s
  end.

Definition rstrip (s : pystr) : pystr := rev (lstrip (rev s)).

(** [s.strip()] *)
Definition strip (s : pystr) : pystr := rstrip (lstrip s).

(** [a == b] on strings. *)
Fixpoint eqb (a b : pystr) : bool :=
  match a, b with
  | [], [] => true
  | x :: a', y :: b' => (x =? y)%N && eqb a' b'
  | _, _ => false
  end.

(** Empty or made of whitespace only. *)
Definition blank (s : pystr) : bool := forallb isspace s.

End PyStr.
Import PyStr.

(** ** Python numbers

    The latency statistics are Python floats.  The handlers are written once
    over the arithmetic they use; [float_num] is the arithmetic the services
    run on (IEEE binary64), [Q_num] is exact arithmetic. *)

Class PyNum (F : Type) := {
  of_int : Z -> F;          (* an [int] operand of a mixed operation *)
  fadd : F -> F -> F;
  fsub : F -> F -> F;
  fmul : F -> F -> F;
  fdiv : F -> F -> F
}.

(** The conversion of an [int] to a float: the nearest binary64 value, ties
    to even.  (Beyond the binary64 range Python raises [OverflowError] where
    this gives infinity; the counters of the services never get there.) *)
Definition float_of_Z (z : Z) : float :=
  SF2Prim (binary_normalize prec emax z 0 false).

#[export] Instance float_num : PyNum float := {
  of_int := float_of_Z;
  fadd := PrimFloat.add;
  fsub := PrimFloat.sub;
  fmul := PrimFloat.mul;
  fdiv := PrimFloat.div
}.

#[export] Instance Q_num : PyNum Q := {
  of_int := inject_Z;
  fadd := Qplus;
  fsub := Qminus;
  fmul := Qmult;
  fdiv := Qdiv
}.

(** The rational number a finite binary64 value stands for. *)
Definition exact (x : float) : option Q :=
  match Prim2SF x with
  | S754_zero _ => Some 0%Q
  | S754_finite s m e =>
      let n := if s then Z.neg m else Z.pos m in
      Some (if e <? 0 then Qmake n (2 ^ Z.to_pos (- e)) else inject_Z (n * 2 ^ e))
  | S754_infinity _ | S754_nan => None
  end.

(** [round(x, ndigits)]: the services only store its result in responses, so
    the call is recorded, not evaluated. *)
Inductive rounded (F : Type) : Type :=
  Round (x : F) (ndigits : Z).
Arguments Round {F} x ndigits.

(** ** The translation engine and the handler monad *)

Module Py.

(** What one call of the engine's [translate] does. *)
Inductive outcome : Type :=
| Returns (translated_text : pystr)
| Raises (message : pystr).

(** A translation object of the engine: its [translate] method. *)
Definition Translation := pystr -> outcome.

(** A language object of the engine; [get_translation] is indexed by the
    code of the target language object it is given. *)
Record Language := {
  code : pystr;
  name : pystr;
  get_translation : pystr -> option Translation
}.

(** One entry of the log: the text handed to [translate] and what happened. *)
Definition call : Type := pystr * outcome.

(** Exceptions caught by the handlers' [except Exception]. *)
Inductive pyexc : Type :=
| BackendError (message : pystr)
| ZeroDivisionError.

(** [str(e)] *)
Definition str_exc (e : pyexc) : pystr :=
  match e with
  | BackendError message => message
  | ZeroDivisionError => lit "float division by zero"
  end.

(** [HTTPException(status_code=..., detail=...)] *)
Inductive HTTPException : Type :=
  mkHTTPException (status_code : Z) (detail : pystr).

Inductive res (E A : Type) : Type :=
| Return (a : A)
| Raise (e : E).
Arguments Return {E A} a.
Arguments Raise {E A} e.

Record World (S : Type) := {
  stats : S;
  calls : list call
}.
Arguments stats {S} w.
Arguments calls {S} w.
Arguments Build_World {S} stats calls.

Definition M (S E A : Type) : Type := World S -> res E A * World S.

Section Monad.
Context {S E : Type}.

Definition ret {A} (a : A) : M S E A := fun w => (Return a, w).

Definition bind {A B} (m : M S E A) (k : A -> M S E B) : M S E B :=
  fun w =>
    match m w with
    | (Return a, w') => k a w'
    | (Raise e, w') => (Raise e, w')
    end.

Definition raise {A} (e : E) : M S E A := fun w => (Raise e, w).

(** [try: m  except Exception as e: h e] *)
Definition try_except {E' A} (m : M S E A) (h : E -> M S E' A) : M S E' A :=
  fun w =>
    match m w with
    | (Return a, w') => (Return a, w')
    | (Raise e, w') => h e w'
    end.

Definition get : M S E S := fun w => (Return (stats w), w).

Definition modify (f : S -> S) : M S E unit :=
  fun w => (Return tt, {| stats := f (stats w); calls := calls w |}).
End Monad.

(** [translation.translate(text)] *)
Definition call_translate {S} (translation : Translation) (text : pystr)
  : M S pyexc pystr :=
  fun w =>
    let o := translation text in
    let w' := {| stats := stats w; calls := calls w ++ [(text, o)] |} in
    match o with
    | Returns translated_text => (Return translated_text, w')
    | Raises message => (Raise (BackendError message), w')
    end.

(** [x / n] with [x] a float and [n] an int. *)
Definition truediv_int {S F} `{PyNum F} (x : F) (n : Z) : M S pyexc F :=
  if n =? 0 then raise ZeroDivisionError else ret (fdiv x (of_int n)).

(** The two readings of [time.time()] around the work of one request. *)
Record Clock (F : Type) := {
  time_before : F;
  time_after : F
}.
Arguments time_before {F} c.
Arguments time_after {F} c.

(** [next((lang for lang in installed_languages if lang.code == c), None)] *)
Definition find_language (installed_languages : list Language) (c : pystr)
  : option Language :=
  find (fun lang => PyStr.eqb (code lang) c) installed_languages.

Definition is_Return {E A} (r : res E A) : bool :=
  match r with
  | Return _ => true
  | Raise _ => false
  end.

Definition successful (c : call) : bool :=
  match snd c with
  | Returns _ => true
  | Raises _ => false
  end.

End Py.
Import Py.

Declare Scope py_scope.
Delimit Scope py_scope with py.
Notation "x <- m ;; k" := (bind m (fun x => k))
  (at level 61, m at next level, right associativity) : py_scope.
Notation "m ;; k" := (bind m (fun _ => k))
  (at level 61, right associativity) : py_scope.
Open Scope py_scope.

(** ** The FastAPI service ([translate_service.py]) *)

Module FastAPI.

Section Service.
Context {F : Type} `{PyNum F}.

(** The [translation_stats] dictionary. *)
Record Stats := {
  total_requests : Z;
  total_characters : Z;
  average_time_ms : F;
  errors : Z
}.

(** The module's other globals, set by [startup_event]. *)
Record Globals := {
  installed_languages : option (list Language);
  th_en_translation : option Translation
}.

Definition initial_stats : Stats :=
  {| total_requests := 0; total_characters := 0;
     average_time_ms := of_int 0; errors := 0 |}.

(** The request models.  Their [Field] bounds ([text]: 1 to 1000
    characters, [texts]: at most 100 items) are enforced by the framework
    before a handler runs; the handlers below are the functions of the
    source, applied to a request object. *)
Record TranslateRequest := {
  text : pystr;
  from_lang : pystr;
  to_lang : pystr
}.

Record TranslateResponse := {
  original : pystr;
  translated : pystr;
  response_from_lang : pystr;
  response_to_lang : pystr;
  success : bool;
  characters : Z;
  time_ms : rounded F
}.

Record BatchTranslateRequest := {
  texts : list pystr;
  batch_from_lang : pystr;
  batch_to_lang : pystr
}.

(** The dictionary [translate_batch] returns. *)
Record BatchResponse := {
  count : Z;
  originals : list pystr;
  batch_translated : list pystr;
  batch_success : bool;
  total_time_ms : rounded F;
  avg_time_per_text_ms : rounded F
}.

Definition test_text : pystr := [3626; 3623; 3633; 3626; 3604; 3637]%N.

(** [startup_event]; [None] when it raises (the application does not
    start). *)
Definition startup_event (languages : list Language) : option Globals :=
  match find_language languages (lit "th"), find_language languages (lit "en") with
  | Some th_lang, Some en_lang =>
      match get_translation th_lang (code en_lang) with
      | Some translation =>
          match translation test_text with
          | Returns _ =>
              Some {| installed_languages := Some languages;
                      th_en_translation := Some translation |}
          | Raises _ => None
          end
      | None => None
      end
  | _, _ => None
  end.

Definition add_requests (n : Z) (s : Stats) : Stats :=
  {| total_requests := total_requests s + n;
     total_characters := total_characters s;
     average_time_ms := average_time_ms s;
     errors := errors s |}.

Definition add_characters (n : Z) (s : Stats) : Stats :=
  {| total_requests := total_requests s;
     total_characters := total_characters s + n;
     average_time_ms := average_time_ms s;
     errors := errors s |}.

Definition set_average (a : F) (s : Stats) : Stats :=
  {| total_requests := total_requests s;
     total_characters := total_characters s;
     average_time_ms := a;
     errors := errors s |}.

Definition add_errors (n : Z) (s : Stats) : Stats :=
  {| total_requests := total_requests s;
     total_characters := total_characters s;
     average_time_ms := average_time_ms s;
     errors := errors s + n |}.

(** [(time.time() - start_time) * 1000] *)
Definition elapsed_ms (clock : Clock F) : F :=
  fmul (fsub (time_after clock) (time_before clock)) (of_int 1000).

(** [POST /translate] *)
Definition translate (g : Globals) (clock : Clock F) (request : TranslateRequest)
  : M Stats HTTPException TranslateResponse :=
  match th_en_translation g with
  | None =>
      raise (mkHTTPException 503
               (lit "Translation model not loaded. Service unavailable."))
  | Some translation =>
      if negb (truthy (text request)) || (len (strip (text request)) =? 0)
      then raise (mkHTTPException 400 (lit "Text cannot be empty"))
      else
        try_except
          (translated_text <- call_translate translation (text request) ;;
           let elapsed := elapsed_ms clock in
           modify (add_requests 1) ;;
           modify (add_characters (len (text request))) ;;
           s <- get ;;
           let prev_avg := average_time_ms s in
           let n := total_requests s in
           avg <- truediv_int (fadd (fmul prev_avg (of_int (n - 1))) elapsed) n ;;
           modify (set_average avg) ;;
           ret {| original := text request;
                  translated := translated_text;
                  response_from_lang := from_lang request;
                  response_to_lang := to_lang request;
                  success := true;
                  characters := len (text request);
                  time_ms := Round elapsed 2 |})
          (fun e =>
             modify (add_errors 1) ;;
             raise (mkHTTPException 500
                      (lit "Translation failed: " ++ str_exc e)))
  end.

(** The [for text in request.texts] loop, [translated] being the list
    built so far. *)
Fixpoint translate_loop (translation : Translation) (rest : list pystr)
    (translated : list pystr) : M Stats pyexc (list pystr) :=
  match rest with
  | [] => ret translated
  | text :: rest' =>
      if truthy text && truthy (strip text)
      then
        result <- call_translate translation text ;;
        modify (add_characters (len text)) ;;
        translate_loop translation rest' (translated ++ [result])
      else translate_loop translation rest' (translated ++ [[]])
  end.

(** [POST /translate/batch] *)
Definition translate_batch (g : Globals) (clock : Clock F)
    (request : BatchTranslateRequest) : M Stats HTTPException BatchResponse :=
  match th_en_translation g with
  | None => raise (mkHTTPException 503 (lit "Translation model not loaded"))
  | Some translation =>
      if len (texts request) >? 100
      then raise (mkHTTPException 400 (lit "Batch size too large (max 100 texts)"))
      else
        try_except
          (translated <- translate_loop translation (texts request) [] ;;
           let elapsed := elapsed_ms clock in
           modify (add_requests (len (texts request))) ;;
           per_text <- truediv_int elapsed (len (texts request)) ;;
           ret {| count := len (texts request);
                  originals := texts request;
                  batch_translated := translated;
                  batch_success := true;
                  total_time_ms := Round elapsed 2;
                  avg_time_per_text_ms := Round per_text 2 |})
          (fun e =>
             modify (add_errors (len (texts request))) ;;
             raise (mkHTTPException 500
                      (lit "Batch translation failed: " ++ str_exc e)))
  end.

(** [POST /reset-stats] *)
Definition reset_stats : M Stats HTTPException unit :=
  modify (fun _ => initial_stats).

(** A request to the service and the service run on a sequence of them. *)
Inductive Request : Type :=
| PostTranslate (clock : Clock F) (request : TranslateRequest)
| PostTranslateBatch (clock : Clock F) (request : BatchTranslateRequest).

Definition handle (g : Globals) (r : Request) (w : World Stats) : World Stats :=
  match r with
  | PostTranslate clock request => snd (translate g clock request w)
  | PostTranslateBatch clock request => snd (translate_batch g clock request w)
  end.

Definition serve (g : Globals) (rs : list Request) (w : World Stats)
  : World Stats :=
  fold_left (fun w r => handle g r w) rs w.

(** The world of a service whose statistics were just reset. *)
Definition reset_world : World Stats :=
  {| stats := initial_stats; calls := [] |}.

(** Did the request get a success response in world [w]? *)
Definition succeeds (g : Globals) (r : Request) (w : World Stats) : bool :=
  match r with
  | PostTranslate clock request => is_Return (fst (translate g clock request w))
  | PostTranslateBatch clock request =>
      is_Return (fst (translate_batch g clock request w))
  end.

(** The [Field] bounds of the request models ([text]: [min_length=1],
    [max_length=1000]; [texts]: [max_length=100]).  The framework checks
    them when it builds the request object: a request that breaks one is
    answered 422 and the handler is not run. *)
Definition TranslateRequest_valid (request : TranslateRequest) : bool :=
  (1 <=? len (text request)) && (len (text request) <=? 1000).

Definition BatchTranslateRequest_valid (request : BatchTranslateRequest) : bool :=
  len (texts request) <=? 100.

(** What an endpoint answers: 422 from the validation of the request model,
    or what the handler returns or raises. *)
Inductive answer (A : Type) : Type :=
| Unprocessable
| Handled (r : res HTTPException A).

(** [POST /translate] as the framework serves it. *)
Definition post_translate (g : Globals) (clock : Clock F)
    (request : TranslateRequest) (w : World Stats)
  : answer TranslateResponse * World Stats :=
  if TranslateRequest_valid request
  then (Handled _ (fst (translate g clock request w)),
        snd (translate g clock request w))
  else (Unprocessable _, w).

(** [POST /translate/batch] as the framework serves it. *)
Definition post_translate_batch (g : Globals) (clock : Clock F)
    (request : BatchTranslateRequest) (w : World Stats)
  : answer BatchResponse * World Stats :=
  if BatchTranslateRequest_valid request
  then (Handled _ (fst (translate_batch g clock request w)),
        snd (translate_batch g clock request w))
  else (Unprocessable _, w).

(** The [HealthResponse] model. *)
Record HealthResponse := {
  status : pystr;
  model_loaded : bool;
  languages : list pystr;
  health_stats : Stats
}.

(** [x is not None] *)
Definition is_not_None {A : Type} (x : option A) : bool :=
  match x with
  | Some _ => true
  | None => false
  end.

(** [GET /health] *)
Definition health_check (g : Globals) : M Stats HTTPException HealthResponse :=
  s <- get ;;
  ret {| status := if is_not_None (th_en_translation g)
                   then lit "healthy" else lit "unhealthy";
         model_loaded := is_not_None (th_en_translation g);
         languages := match installed_languages g with
                      | Some installed => map code installed
                      | None => []
                      end;
         health_stats := s |}.

(** The dictionary [get_stats] returns. *)
Record StatsResponse := {
  stats_stats : Stats;
  model_info_source : pystr;
  model_info_target : pystr;
  model_info_loaded : bool
}.

(** [GET /stats] *)
Definition get_stats (g : Globals) : M Stats HTTPException StatsResponse :=
  s <- get ;;
  ret {| stats_stats := s;
         model_info_source := lit "th";
         model_info_target := lit "en";
         model_info_loaded := is_not_None (th_en_translation g) |}.

(** The requests that change the state of the service: the two translation
    endpoints and [POST /reset-stats]. *)
Inductive Action : Type :=
| Post (r : Request)
| PostResetStats.

Definition perform (g : Globals) (a : Action) (w : World Stats) : World Stats :=
  match a with
  | Post r => handle g r w
  | PostResetStats => snd (reset_stats w)
  end.

Definition run (g : Globals) (actions : list Action) (w : World Stats)
  : World Stats :=
  fold_left (fun w a => perform g a w) actions w.

End Service.

Arguments Stats F : clear implicits.
Arguments TranslateResponse F : clear implicits.
Arguments BatchResponse F : clear implicits.
Arguments Request F : clear implicits.
Arguments HealthResponse F : clear implicits.
Arguments StatsResponse F : clear implicits.
Arguments Action F : clear implicits.
Arguments Unprocessable {A}.
Arguments Handled {A} r.

End FastAPI.

(** ** The Flask service ([argos-translate-server.py]) *)

Module Flask.

Section Service.
Context {F : Type} `{PyNum F}.

(** The [stats] dictionary. *)
Record Stats := {
  total_translations : Z;
  thai_to_english : Z;
  english_to_thai : Z;
  start_time : F
}.

(** What [request.get_json()] returns: the JSON object of the body, its
    fields being strings when present, or [None] for a JSON value that is
    falsy ([null], an empty object).  A request without a JSON body, on
    which [get_json()] raises, is not among these. *)
Record Body := {
  q : option pystr;
  source : option pystr;
  target : option pystr
}.

(** The JSON object of a response. *)
Inductive Json : Type :=
| TranslationJson (translatedText source target original : pystr)
    (duration_seconds : option (rounded F))
| ErrorJson (error : pystr).

(** A response: its body and its status code. *)
Definition Response : Type := Json * Z.

Definition count_translation (source_code target_code : pystr) (s : Stats)
  : Stats :=
  let th_en := PyStr.eqb source_code (lit "th") && PyStr.eqb target_code (lit "en") in
  let en_th := PyStr.eqb source_code (lit "en") && PyStr.eqb target_code (lit "th") in
  {| total_translations := total_translations s + 1;
     thai_to_english :=
       if th_en then thai_to_english s + 1 else thai_to_english s;
     english_to_thai :=
       if th_en then english_to_thai s
       else if en_th then english_to_thai s + 1 else english_to_thai s;
     start_time := start_time s |}.

(** [data.get(key, default)] *)
Definition get_default (field : option pystr) (default : pystr) : pystr :=
  match field with
  | Some v => v
  | None => default
  end.

(** The body of the [try] block of [translate]. *)
Definition translate_body (languages : list Language) (clock : Clock F)
    (data : option Body) : M Stats pyexc Response :=
  match data with
  | None => ret (ErrorJson (lit "Missing required parameter: q"), 400)
  | Some data =>
      match q data with
      | None => ret (ErrorJson (lit "Missing required parameter: q"), 400)
      | Some text =>
          let source_code := get_default (source data) (lit "th") in
          let target_code := get_default (target data) (lit "en") in
          if negb (truthy (strip text))
          then ret (TranslationJson text source_code target_code text None, 200)
          else
            let source_lang := find_language languages source_code in
            let target_lang := find_language languages target_code in
            match source_lang with
            | None =>
                ret (ErrorJson (lit "Source language " ++ dquote ++ source_code
                                  ++ dquote ++ lit " not available"), 400)
            | Some source_lang =>
                match target_lang with
                | None =>
                    ret (ErrorJson (lit "Target language " ++ dquote ++ target_code
                                      ++ dquote ++ lit " not available"), 400)
                | Some target_lang =>
                    match get_translation source_lang (code target_lang) with
                    | None =>
                        ret (ErrorJson
                               (lit "No translation model available from "
                                  ++ source_code ++ lit " to " ++ target_code),
                             400)
                    | Some translation =>
                        translated_text <- call_translate translation text ;;
                        let duration :=
                          fsub (time_after clock) (time_before clock) in
                        modify (count_translation source_code target_code) ;;
                        ret (TranslationJson translated_text source_code
                               target_code text (Some (Round duration 3)),
                             200)
                    end
                end
            end
      end
  end.

(** [POST /translate]; [languages] is what the engine's
    [get_installed_languages()] returns. *)
Definition translate (languages : list Language) (clock : Clock F)
    (data : option Body) : M Stats HTTPException Response :=
  try_except (translate_body languages clock data)
    (fun e => ret (ErrorJson (str_exc e), 500)).

(** [int(x)]: recorded, not evaluated, like [round]. *)
Inductive int_of : Type :=
  IntOf (x : F).

(** The JSON object [health_check] returns. *)
Record HealthJson := {
  status : pystr;
  service : pystr;
  version : pystr;
  installed_languages : list pystr;
  thai_support : bool;
  english_support : bool;
  uptime_seconds : int_of
}.

(** [c in language_codes] *)
Definition contains (language_codes : list pystr) (c : pystr) : bool :=
  existsb (fun x => PyStr.eqb x c) language_codes.

(** [GET /health]; [now] is the reading of [time.time()]. *)
Definition health_check (languages : list Language) (now : F)
  : M Stats HTTPException HealthJson :=
  let language_codes := map code languages in
  let has_thai := contains language_codes (lit "th") in
  let has_english := contains language_codes (lit "en") in
  s <- get ;;
  ret {| status := if has_thai && has_english
                   then lit "healthy" else lit "degraded";
         service := lit "Argos Translate Server";
         version := lit "1.0.0";
         installed_languages := language_codes;
         thai_support := has_thai;
         english_support := has_english;
         uptime_seconds := IntOf (fsub now (start_time s)) |}.

(** The JSON object [get_languages] returns: the [code] and [name] of each
    language, and their count. *)
Record LanguagesJson := {
  languages_list : list (pystr * pystr);
  languages_count : Z
}.

(** [GET /languages] *)
Definition get_languages (languages : list Language)
  : M Stats HTTPException LanguagesJson :=
  let listed := map (fun lang => (code lang, name lang)) languages in
  ret {| languages_list := listed; languages_count := len listed |}.

(** One [POST /translate] exchange: what the engine has installed when the
    request arrives, the clock, and the body. *)
Record Exchange := {
  exchange_languages : list Language;
  exchange_clock : Clock F;
  exchange_data : option Body
}.

Definition handle (x : Exchange) (w : World Stats) : World Stats :=
  snd (translate (exchange_languages x) (exchange_clock x) (exchange_data x) w).

Definition serve (xs : list Exchange) (w : World Stats) : World Stats :=
  fold_left (fun w x => handle x w) xs w.

End Service.

Arguments Stats F : clear implicits.
Arguments Json F : clear implicits.
Arguments Response F : clear implicits.
Arguments int_of F : clear implicits.
Arguments HealthJson F : clear implicits.
Arguments Exchange F : clear implicits.

(** *** The installer run before the server starts *)

(** What a call of the engine's package manager does. *)
Inductive attempt (A : Type) : Type :=
| Done (a : A)
| Fails (message : pystr).
Arguments Done {A} a.
Arguments Fails {A} message.

(** A package of the engine's index; [download] is what its [download()]
    method does: return a path or raise. *)
Record Package := {
  from_code : pystr;
  to_code : pystr;
  package_version : pystr;
  download : attempt pystr
}.

(** The engine's package manager during one run of the installer;
    [get_installed_languages] is given the paths installed so far. *)
Record PackageManager := {
  update_package_index : attempt unit;
  get_available_packages : attempt (list Package);
  install_from_path : pystr -> attempt unit;
  get_installed_languages : list pystr -> list Language
}.

(** The calls the installer makes to the package manager. *)
Inductive PackageCall : Type :=
| CallUpdateIndex
| CallGetAvailable
| CallDownload (pkg : Package)
| CallInstall (path : pystr).

(** One call: it is logged, then returns or raises. *)
Definition package_call {A : Type} (c : PackageCall) (r : attempt A)
  : M (list PackageCall) pyexc A :=
  modify (fun l => l ++ [c]) ;;
  match r with
  | Done a => ret a
  | Fails message => raise (BackendError message)
  end.

(** The paths handed to [install_from_path] so far. *)
Fixpoint installed_paths (l : list PackageCall) : list pystr :=
  match l with
  | [] => []
  | CallInstall path :: l' => path :: installed_paths l'
  | _ :: l' => installed_paths l'
  end.

(** [pkg.from_code == a and pkg.to_code == b] *)
Definition is_pair (a b : pystr) (pkg : Package) : bool :=
  PyStr.eqb (from_code pkg) a && PyStr.eqb (to_code pkg) b.

(** The download and the installation of a package that was found. *)
Definition install_package (pm : PackageManager) (pkg : Package)
  : M (list PackageCall) pyexc unit :=
  download_path <- package_call (CallDownload pkg) (download pkg) ;;
  package_call (CallInstall download_path) (install_from_path pm download_path).

Definition test_text : pystr := [3626; 3623; 3633; 3626; 3604; 3637]%N.

(** The body of the [try] block of [install_language_packages]. *)
Definition install_body (pm : PackageManager)
  : M (list PackageCall) pyexc bool :=
  package_call CallUpdateIndex (update_package_index pm) ;;
  available_packages <-
    package_call CallGetAvailable (get_available_packages pm) ;;
  match find (is_pair (lit "th") (lit "en")) available_packages with
  | Some th_en_package => install_package pm th_en_package
  | None => ret tt
  end ;;
  match find (is_pair (lit "en") (lit "th")) available_packages with
  | Some en_th_package => install_package pm en_th_package
  | None => ret tt
  end ;;
  l <- get ;;
  let installed_languages := get_installed_languages pm (installed_paths l) in
  match find_language installed_languages (lit "th"),
        find_language installed_languages (lit "en") with
  | Some thai_lang, Some en_lang =>
      match get_translation thai_lang (code en_lang) with
      | Some translation =>
          call_translate translation test_text ;;
          ret true
      | None => ret true
      end
  | _, _ => ret true
  end.

(** [install_language_packages()] *)
Definition install_language_packages (pm : PackageManager)
  : M (list PackageCall) Empty_set bool :=
  try_except (install_body pm) (fun _ => ret false).

End Flask.

(** ** A concrete engine and concrete requests, for evaluation *)

Module Examples.

(** An engine that fails on the text [boom] and otherwise answers with the
    text prefixed by [EN:]. *)
Definition sample_translation : Translation :=
  fun text =>
    if PyStr.eqb text (lit "boom") then Raises (lit "engine failure")
    else Returns (lit "EN:" ++ text).

Definition th_language : Language :=
  {| code := lit "th"; name := lit "Thai";
     get_translation := fun c =>
       if PyStr.eqb c (lit "en") then Some sample_translation else None |}.

Definition en_language : Language :=
  {| code := lit "en"; name := lit "English";
     get_translation := fun _ => None |}.

Definition sample_languages : list Language := [th_language; en_language].

Definition sample_globals : FastAPI.Globals :=
  {| FastAPI.installed_languages := Some sample_languages;
     FastAPI.th_en_translation := Some sample_translation |}.

Definition request_of (t from to : string) : FastAPI.TranslateRequest :=
  {| FastAPI.text := lit t; FastAPI.from_lang := lit from; FastAPI.to_lang := lit to |}.

Definition batch_of (ts : list string) : FastAPI.BatchTranslateRequest :=
  {| FastAPI.texts := map lit ts;
     FastAPI.batch_from_lang := lit "th";
     FastAPI.batch_to_lang := lit "en" |}.

Definition float_clock (t0 t1 : float) : Clock float :=
  {| time_before := t0; time_after := t1 |}.

Definition Q_clock (t0 t1 : Q) : Clock Q :=
  {| time_before := t0; time_after := t1 |}.

Definition flask_body (t src tgt : string) : Flask.Body :=
  {| Flask.q := Some (lit t);
     Flask.source := Some (lit src);
     Flask.target := Some (lit tgt) |}.

Definition flask_world : World (Flask.Stats float) :=
  {| stats := {| Flask.total_translations := 0; Flask.thai_to_english := 0;
                 Flask.english_to_thai := 0; Flask.start_time := 50%float |};
     calls := [] |}.

Definition fastapi_world : World (FastAPI.Stats float) := FastAPI.reset_world.

(** Eight requests that took 1, 6, 4, 7, 1, 2, 9 and 2 seconds. *)
Definition eight_requests : list (Clock float * FastAPI.TranslateRequest) :=
  map (fun t1 => (float_clock 0 t1, request_of "a" "th" "en"))
    [1; 6; 4; 7; 1; 2; 9; 2]%float.

(** A success, a rejection, a batch that succeeds, a batch that fails and a
    single request that fails. *)
Definition mixed_requests : list (FastAPI.Request float) :=
  [FastAPI.PostTranslate (float_clock 0 1) (request_of "a" "th" "en");
   FastAPI.PostTranslate (float_clock 0 1) (request_of " " "th" "en");
   FastAPI.PostTranslateBatch (float_clock 0 1)
     (batch_of ["a"; EmptyString; "b"]%string);
   FastAPI.PostTranslateBatch (float_clock 0 1) (batch_of ["a"; "boom"]%string);
   FastAPI.PostTranslate (float_clock 0 1) (request_of "boom" "th" "en")].

(** An index that offers Thai to English and English to German; every
    download and installation goes through, and the installed languages are
    Thai and English once something has been installed. *)
Definition th_en_package : Flask.Package :=
  {| Flask.from_code := lit "th"; Flask.to_code := lit "en";
     Flask.package_version := lit "1.0";
     Flask.download := Flask.Done (lit "/tmp/th_en.argosmodel") |}.

Definition en_de_package : Flask.Package :=
  {| Flask.from_code := lit "en"; Flask.to_code := lit "de";
     Flask.package_version := lit "1.9";
     Flask.download := Flask.Done (lit "/tmp/en_de.argosmodel") |}.

Definition sample_manager (index : list Flask.Package) : Flask.PackageManager :=
  {| Flask.update_package_index := Flask.Done tt;
     Flask.get_available_packages := Flask.Done index;
     Flask.install_from_path := fun _ => Flask.Done tt;
     Flask.get_installed_languages := fun paths =>
       match paths with
       | [] => []
       | _ :: _ => sample_languages
       end |}.

(** A package whose download fails. *)
Definition broken_package : Flask.Package :=
  {| Flask.from_code := lit "th"; Flask.to_code := lit "en";
     Flask.package_version := lit "1.0";
     Flask.download := Flask.Fails (lit "connection reset") |}.

End Examples.
Import Examples.

(** ** Notions used to state the properties *)

(** The statistics after a translation that went through. *)
Definition stats_after_translation {F : Type} `{PyNum F} (clock : Clock F)
    (t : pystr) (s : FastAPI.Stats F) : FastAPI.Stats F :=
  let n := FastAPI.total_requests s + 1 in
  FastAPI.set_average
    (fdiv (fadd (fmul (FastAPI.average_time_ms s) (of_int (n - 1)))
                (FastAPI.elapsed_ms clock))
          (of_int n))
    (FastAPI.add_characters (len t) (FastAPI.add_requests 1 s)).

(** The entry of the output list of a batch for one input text. *)
Definition batch_entry (translation : Translation) (t : pystr) : pystr :=
  if blank t then []
  else match translation t with
       | Returns translated_text => translated_text
       | Raises _ => []
       end.

(** A text the loop of a batch gets past: blank, or translated by the
    engine. *)
Definition passes (translation : Translation) (t : pystr) : bool :=
  blank t || successful (t, translation t).

Definition nonblank (t : pystr) : bool := negb (blank t).

(** The calls the loop makes for a list of texts it gets past. *)
Definition calls_for (translation : Translation) (ts : list pystr) : list call :=
  map (fun t => (t, translation t)) (filter nonblank ts).

(** The characters the loop counts for a list of texts it gets past. *)
Definition characters_of (ts : list pystr) : Z :=
  fold_right (fun t n => len t + n) 0 (filter nonblank ts).



(** The lengths of the texts of the log that the engine translated. *)
Definition counted_characters (cs : list call) : Z :=
  fold_right (fun c n => if successful c then len (fst c) + n else n) 0 cs.

(** The texts of a list that the loop of a batch gets translated: those
    that are not blank, up to the first one on which the engine raises. *)
Fixpoint translated_prefix (translation : Translation) (ts : list pystr)
  : list pystr :=
  match ts with
  | [] => []
  | t :: ts' =>
      if blank t then translated_prefix translation ts'
      else match translation t with
           | Returns _ => t :: translated_prefix translation ts'
           | Raises _ => []
           end
  end.

(** The texts of a request that the engine translates. *)
Definition translated_texts {F : Type} (g : FastAPI.Globals)
    (r : FastAPI.Request F) : list pystr :=
  match FastAPI.th_en_translation g with
  | None => []
  | Some translation =>
      match r with
      | FastAPI.PostTranslate _ request =>
          translated_prefix translation [FastAPI.text request]
      | FastAPI.PostTranslateBatch _ request =>
          if len (FastAPI.texts request) >? 100 then []
          else translated_prefix translation (FastAPI.texts request)
      end
  end.

Definition total_len (ts : list pystr) : Z :=
  fold_right (fun t n => len t + n) 0 ts.

(** The texts of the log on which the engine returned a translation. *)
Definition translated_log (cs : list call) : list pystr :=
  map fst (filter successful cs).

(** What holds of the character total and the log at every moment. *)
Definition characters_match_log {F : Type} (w : World (FastAPI.Stats F)) : Prop :=
  FastAPI.total_characters (stats w) = counted_characters (calls w) /\
  Forall (fun c => blank (fst c) = false) (calls w).

(** Every request of the sequence, served in turn from [w], succeeds. *)
Fixpoint all_succeed {F : Type} `{PyNum F} (g : FastAPI.Globals)
    (rs : list (FastAPI.Request F)) (w : World (FastAPI.Stats F)) : bool :=
  match rs with
  | [] => true
  | r :: rs' => FastAPI.succeeds g r w && all_succeed g rs' (FastAPI.handle g r w)
  end.

(** A sequence of single-translation requests, each with its clock. *)
Definition singles {F : Type} (l : list (Clock F * FastAPI.TranslateRequest))
  : list (FastAPI.Request F) :=
  map (fun p => FastAPI.PostTranslate (fst p) (snd p)) l.

(** The latencies the service observed on them. *)
Definition latencies {F : Type} `{PyNum F}
    (l : list (Clock F * FastAPI.TranslateRequest)) : list F :=
  map (fun p => FastAPI.elapsed_ms (fst p)) l.

Definition Qsum (l : list Q) : Q := fold_right Qplus 0%Q l.

Definition exact_all (l : list float) : option (list Q) :=
  fold_right (fun x acc =>
                match exact x, acc with
                | Some v, Some vs => Some (v :: vs)
                | _, _ => None
                end) (Some []) l.

(** The arithmetic mean of the numbers a list of floats stands for. *)
Definition exact_mean (l : list float) : option Q :=
  option_map (fun vs => Qsum vs / inject_Z (len vs))%Q (exact_all l).

(** *** Notions for the accounting of the FastAPI counters *)

(** The three ways a request can end. *)
Inductive verdict : Type :=
| Succeeded
| Rejected     (* 400 or 503: refused before any work *)
| Failed.      (* 500: the work raised *)

Definition verdict_of {A : Type} (r : res HTTPException A) : verdict :=
  match r with
  | Return _ => Succeeded
  | Raise (mkHTTPException status_code _) =>
      if status_code =? 500 then Failed else Rejected
  end.

Definition same_verdict (a b : verdict) : bool :=
  match a, b with
  | Succeeded, Succeeded | Rejected, Rejected | Failed, Failed => true
  | _, _ => false
  end.

(** The verdict on request [r] served in world [w]. *)
Definition verdict_on {F : Type} `{PyNum F} (g : FastAPI.Globals)
    (r : FastAPI.Request F) (w : World (FastAPI.Stats F)) : verdict :=
  match r with
  | FastAPI.PostTranslate clock request =>
      verdict_of (fst (FastAPI.translate g clock request w))
  | FastAPI.PostTranslateBatch clock request =>
      verdict_of (fst (FastAPI.translate_batch g clock request w))
  end.

(** What a request weighs in the counters: one, or the size of the batch. *)
Definition weight {F : Type} (r : FastAPI.Request F) : Z :=
  match r with
  | FastAPI.PostTranslate _ _ => 1
  | FastAPI.PostTranslateBatch _ request => len (FastAPI.texts request)
  end.

(** The total weight of the requests of a sequence, served in turn from
    [w], that end with verdict [v]. *)
Fixpoint weight_of {F : Type} `{PyNum F} (v : verdict) (g : FastAPI.Globals)
    (rs : list (FastAPI.Request F)) (w : World (FastAPI.Stats F)) : Z :=
  match rs with
  | [] => 0
  | r :: rs' =>
      (if same_verdict (verdict_on g r w) v then weight r else 0)
      + weight_of v g rs' (FastAPI.handle g r w)
  end.

(** The texts a request carries. *)
Definition texts_of {F : Type} (r : FastAPI.Request F) : list pystr :=
  match r with
  | FastAPI.PostTranslate _ request => [FastAPI.text request]
  | FastAPI.PostTranslateBatch _ request => FastAPI.texts request
  end.

(** A logged call that is a call of [translation] on a text of [ts] that is
    not blank. *)
Definition call_within (translation : Translation) (ts : list pystr)
    (c : call) : Prop :=
  In (fst c) ts /\ blank (fst c) = false /\ snd c = translation (fst c).

Definition nonnegative {F : Type} (s : FastAPI.Stats F) : Prop :=
  0 <= FastAPI.total_requests s /\
  0 <= FastAPI.total_characters s /\
  0 <= FastAPI.errors s.

(** *** Notions for the installer *)

(** The installer starts with nothing logged. *)
Definition fresh_install : World (list Flask.PackageCall) :=
  {| stats := []; calls := [] |}.

(** The package is one of the two the installer looks for. *)
Definition wanted (pkg : Flask.Package) : Prop :=
  Flask.from_code pkg = lit "th" /\ Flask.to_code pkg = lit "en" \/
  Flask.from_code pkg = lit "en" /\ Flask.to_code pkg = lit "th".

(** *** The incremental mean *)

(** The incremental formula [(mean * n + sample) / (n + 1)], applied to the
    samples in order from the mean [a] of [n] earlier samples, in the
    arithmetic at hand. *)
Fixpoint incremental_mean {F : Type} `{PyNum F} (a : F) (n : Z) (samples : list F)
  : F :=
  match samples with
  | [] => a
  | e :: samples' =>
      incremental_mean (fdiv (fadd (fmul a (of_int n)) e) (of_int (n + 1)))
        (n + 1) samples'
  end.

(** * Properties *)

(** ** Facts about Python strings *)

Module PyStrFacts.

Lemma eqb_eq (a b : pystr) : eqb a b = true <-> a = b.
Proof.
  revert b; induction a as [|x a IH]; intros [|y b]; simpl;
    try (split; [discriminate | congruence]); try tauto.
  rewrite andb_true_iff, N.eqb_eq, IH. split.
  - intros [-> ->]; reflexivity.
  - intros E; injection E; auto.
Qed.

Lemma eqb_refl (a : pystr) : eqb a a = true.
Proof. apply eqb_eq; reflexivity. Qed.

Lemma lstrip_nil (s : pystr) : lstrip s = [] <-> blank s = true.
Proof.
  induction s as [|c r IH]; simpl; [tauto|].
  destruct (isspace c); simpl; [exact IH|].
  split; discriminate.
Qed.

Lemma lstrip_head (s : pystr) :
  match lstrip s with
  | [] => True
  | c :: _ => isspace c = false
  end.
Proof.
  induction s as [|c r IH]; simpl; [exact I|].
  destruct (isspace c) eqn:E; [exact IH | exact E].
Qed.

Lemma blank_lstrip (s : pystr) : blank (lstrip s) = blank s.
Proof.
  induction s as [|c r IH]; simpl; [reflexivity|].
  destruct (isspace c) eqn:E; simpl; [exact IH|].
  rewrite E; reflexivity.
Qed.

Lemma blank_rev (s : pystr) : blank (rev s) = blank s.
Proof.
  unfold blank. induction s as [|c r IH]; simpl; [reflexivity|].
  rewrite forallb_app, IH; simpl. rewrite andb_true_r, andb_comm; reflexivity.
Qed.

Lemma rev_nil_iff {A} (l : list A) : rev l = [] <-> l = [].
Proof.
  split; intros H; [|subst; reflexivity].
  rewrite <- (rev_involutive l), H; reflexivity.
Qed.

(** What both services test: stripping leaves nothing exactly when the
    string is blank. *)
Lemma strip_nil (s : pystr) : strip s = [] <-> blank s = true.
Proof.
  unfold strip, rstrip.
  etransitivity; [apply rev_nil_iff|].
  etransitivity; [apply lstrip_nil|].
  rewrite blank_rev, blank_lstrip. tauto.
Qed.

Lemma truthy_strip (s : pystr) : truthy (strip s) = negb (blank s).
Proof.
  destruct (blank s) eqn:B.
  - apply strip_nil in B. rewrite B; reflexivity.
  - destruct (strip s) eqn:S; [|reflexivity].
    apply strip_nil in S. congruence.
Qed.

Lemma len_strip_zero (s : pystr) : (len (strip s) =? 0) = blank s.
Proof.
  destruct (blank s) eqn:B.
  - apply strip_nil in B. rewrite B; reflexivity.
  - destruct (strip s) eqn:S.
    + apply strip_nil in S. congruence.
    + unfold len; simpl List.length. apply Z.eqb_neq. lia.
Qed.

Lemma blank_nil_or (s : pystr) : negb (truthy s) || blank s = blank s.
Proof. destruct s; reflexivity. Qed.

End PyStrFacts.
Import PyStrFacts.

(** ** Facts about the FastAPI handlers *)

Module FastAPIFacts.
Import FastAPI.

Lemma empty_test (t : pystr) :
  negb (truthy t) || (len (strip t) =? 0) = blank t.
Proof. rewrite len_strip_zero. apply blank_nil_or. Qed.

Lemma nonblank_test (t : pystr) :
  truthy t && truthy (strip t) = negb (blank t).
Proof. rewrite truthy_strip. destruct t; reflexivity. Qed.

Lemma world_eta {S} (w : World S) : {| stats := stats w; calls := calls w |} = w.
Proof. destruct w; reflexivity. Qed.

Section Handlers.
Context {F : Type} `{PyNum F}.

Implicit Types (g : Globals) (w : World (Stats F)) (s : Stats F).

Lemma add_characters_0 s : add_characters 0 s = s.
Proof. destruct s; unfold add_characters; simpl. f_equal. lia. Qed.

Lemma add_requests_0 s : add_requests 0 s = s.
Proof. destruct s; unfold add_requests; simpl. f_equal. lia. Qed.

Lemma add_errors_0 s : add_errors 0 s = s.
Proof. destruct s; unfold add_errors; simpl. f_equal. lia. Qed.

Lemma add_characters_add a b s :
  add_characters b (add_characters a s) = add_characters (a + b) s.
Proof. unfold add_characters; simpl. f_equal. lia. Qed.

(** *** [translate] *)

Lemma translate_unloaded g clock request w :
  th_en_translation g = None ->
  translate g clock request w =
    (Raise (mkHTTPException 503
              (lit "Translation model not loaded. Service unavailable.")), w).
Proof. intros L. unfold translate. rewrite L. reflexivity. Qed.

Lemma translate_blank g translation clock request w :
  th_en_translation g = Some translation ->
  blank (text request) = true ->
  translate g clock request w =
    (Raise (mkHTTPException 400 (lit "Text cannot be empty")), w).
Proof.
  intros L B. unfold translate. rewrite L, empty_test, B. reflexivity.
Qed.

(** Every path of [translate] for a loaded model and a text that is not
    blank. *)
Lemma translate_nonblank g translation clock request w :
  th_en_translation g = Some translation ->
  blank (text request) = false ->
  translate g clock request w =
    let t := text request in
    let logged := calls w ++ [(t, translation t)] in
    match translation t with
    | Raises message =>
        (Raise (mkHTTPException 500 (lit "Translation failed: " ++ message)),
         {| stats := add_errors 1 (stats w); calls := logged |})
    | Returns translated_text =>
        if total_requests (stats w) + 1 =? 0
        then
          (Raise (mkHTTPException 500
                    (lit "Translation failed: " ++ str_exc ZeroDivisionError)),
           {| stats := add_errors 1
                         (add_characters (len t) (add_requests 1 (stats w)));
              calls := logged |})
        else
          (Return {| original := t;
                     translated := translated_text;
                     response_from_lang := from_lang request;
                     response_to_lang := to_lang request;
                     success := true;
                     characters := len t;
                     time_ms := Round (elapsed_ms clock) 2 |},
           {| stats := stats_after_translation clock t (stats w);
              calls := logged |})
    end.
Proof.
  intros L B. unfold translate. rewrite L, empty_test, B. simpl.
  unfold try_except, bind, call_translate.
  destruct (translation (text request)) as [out|message]; simpl; [|reflexivity].
  unfold truediv_int; simpl.
  destruct (total_requests (stats w) + 1 =? 0); reflexivity.
Qed.

(** *** The loop of [translate_batch] *)

Lemma translate_loop_passes translation ts : forall translated w,
  forallb (passes translation) ts = true ->
  translate_loop translation ts translated w =
    (Return (translated ++ map (batch_entry translation) ts),
     {| stats := add_characters (characters_of ts) (stats w);
        calls := calls w ++ calls_for translation ts |}).
Proof.
  induction ts as [|t ts IH]; intros translated w P.
  - simpl. unfold ret, characters_of, calls_for; simpl.
    rewrite add_characters_0, !app_nil_r, world_eta. reflexivity.
  - simpl in P. apply andb_true_iff in P as [Pt P].
    cbn [translate_loop]. rewrite nonblank_test.
    unfold passes, successful, batch_entry, characters_of, calls_for, nonblank in *.
    cbn [map filter]. destruct (blank t) eqn:B; cbn [negb].
    + rewrite IH by exact P. rewrite <- app_assoc. reflexivity.
    + simpl in Pt. unfold bind at 1, call_translate.
      destruct (translation t) as [out|message] eqn:T; [|discriminate].
      unfold bind, modify; cbn [stats calls].
      rewrite IH by exact P. cbn [stats calls map fold_right].
      rewrite add_characters_add, <- !app_assoc, T. reflexivity.
Qed.

Lemma translate_loop_raises translation pre t post message : forall translated w,
  forallb (passes translation) pre = true ->
  blank t = false ->
  translation t = Raises message ->
  translate_loop translation (pre ++ t :: post) translated w =
    (Raise (BackendError message),
     {| stats := add_characters (characters_of pre) (stats w);
        calls := calls w ++ calls_for translation pre ++ [(t, Raises message)] |}).
Proof.
  induction pre as [|p pre IH]; intros translated w P B T.
  - cbn [app translate_loop]. rewrite nonblank_test, B. cbn [negb andb].
    unfold bind, call_translate. rewrite T.
    unfold characters_of, calls_for; simpl.
    rewrite add_characters_0. reflexivity.
  - simpl in P. apply andb_true_iff in P as [Pp P].
    cbn [app translate_loop]. rewrite nonblank_test.
    unfold passes, successful, characters_of, calls_for, nonblank in *.
    cbn [map filter]. destruct (blank p) eqn:Bp; cbn [negb].
    + rewrite IH by assumption. reflexivity.
    + simpl in Pp. unfold bind at 1, call_translate.
      destruct (translation p) as [out|m] eqn:Tp; [|discriminate].
      unfold bind, modify; cbn [stats calls].
      rewrite IH by assumption. cbn [stats calls map fold_right app].
      rewrite add_characters_add, <- !app_assoc, Tp. reflexivity.
Qed.

Lemma first_failure translation ts :
  forallb (passes translation) ts = false ->
  exists pre t post message,
    ts = pre ++ t :: post /\
    forallb (passes translation) pre = true /\
    blank t = false /\ translation t = Raises message.
Proof.
  induction ts as [|t ts IH]; [discriminate|].
  cbn [forallb]. destruct (passes translation t) eqn:Pt; cbn [andb].
  - intros P. destruct (IH P) as (pre & t' & post & m & -> & Ppre & B & T).
    exists (t :: pre), t', post, m. cbn [forallb app]. rewrite Pt, Ppre. auto.
  - intros _. unfold passes, successful in Pt. cbn [snd] in Pt.
    apply orb_false_iff in Pt as [B T].
    destruct (translation t) as [out|m] eqn:E; [discriminate|].
    exists [], t, ts, m. auto.
Qed.

(** *** [translate_batch] *)

Lemma translate_batch_unloaded g clock request w :
  th_en_translation g = None ->
  translate_batch g clock request w =
    (Raise (mkHTTPException 503 (lit "Translation model not loaded")), w).
Proof. intros L. unfold translate_batch. rewrite L. reflexivity. Qed.

Lemma translate_batch_too_large g translation clock request w :
  th_en_translation g = Some translation ->
  100 < len (texts request) ->
  translate_batch g clock request w =
    (Raise (mkHTTPException 400 (lit "Batch size too large (max 100 texts)")), w).
Proof.
  intros L G. unfold translate_batch. rewrite L.
  replace (len (texts request) >? 100) with true; [reflexivity|].
  symmetry. apply Z.gtb_lt. exact G.
Qed.

(** A batch within the bound whose texts all get past the loop. *)
Lemma translate_batch_passes g translation clock request w :
  th_en_translation g = Some translation ->
  len (texts request) <= 100 ->
  forallb (passes translation) (texts request) = true ->
  translate_batch g clock request w =
    let ts := texts request in
    let counted := add_requests (len ts) (add_characters (characters_of ts) (stats w)) in
    let logged := calls w ++ calls_for translation ts in
    if len ts =? 0
    then
      (Raise (mkHTTPException 500
                (lit "Batch translation failed: " ++ str_exc ZeroDivisionError)),
       {| stats := add_errors (len ts) counted; calls := logged |})
    else
      (Return {| count := len ts;
                 originals := ts;
                 batch_translated := map (batch_entry translation) ts;
                 batch_success := true;
                 total_time_ms := Round (elapsed_ms clock) 2;
                 avg_time_per_text_ms :=
                   Round (fdiv (elapsed_ms clock) (of_int (len ts))) 2 |},
       {| stats := counted; calls := logged |}).
Proof.
  intros L B P. unfold translate_batch. rewrite L.
  replace (len (texts request) >? 100) with false
    by (symmetry; rewrite Z.gtb_ltb; apply Z.ltb_ge; exact B).
  unfold try_except, bind at 1. rewrite translate_loop_passes by exact P.
  unfold bind, modify, truediv_int; cbn [stats calls app].
  destruct (len (texts request) =? 0); reflexivity.
Qed.

(** A batch within the bound in which the engine raises. *)
Lemma translate_batch_raises g translation clock request w pre t post message :
  th_en_translation g = Some translation ->
  len (texts request) <= 100 ->
  texts request = pre ++ t :: post ->
  forallb (passes translation) pre = true ->
  blank t = false ->
  translation t = Raises message ->
  translate_batch g clock request w =
    (Raise (mkHTTPException 500 (lit "Batch translation failed: " ++ message)),
     {| stats := add_errors (len (texts request))
                   (add_characters (characters_of pre) (stats w));
        calls := calls w ++ calls_for translation pre ++ [(t, Raises message)] |}).
Proof.
  intros L B E P Bt T. unfold translate_batch. rewrite L.
  replace (len (texts request) >? 100) with false
    by (symmetry; rewrite Z.gtb_ltb; apply Z.ltb_ge; exact B).
  unfold try_except, bind at 1. rewrite E at 1.
  rewrite (translate_loop_raises _ _ _ _ message) by assumption.
  reflexivity.
Qed.

End Handlers.

End FastAPIFacts.

(** ** Facts about the Flask handler *)

Module FlaskFacts.
Import Flask.

Lemma find_language_none languages c :
  ~ In c (map code languages) -> find_language languages c = None.
Proof.
  unfold find_language. induction languages as [|l ls IH]; simpl; [reflexivity|].
  intros N. destruct (PyStr.eqb (code l) c) eqn:E.
  - apply eqb_eq in E. tauto.
  - apply IH. tauto.
Qed.

Lemma find_language_some languages c :
  In c (map code languages) ->
  exists lang, find_language languages c = Some lang /\ code lang = c.
Proof.
  unfold find_language. induction languages as [|l ls IH]; simpl; [tauto|].
  intros I. destruct (PyStr.eqb (code l) c) eqn:E.
  - apply eqb_eq in E. eauto.
  - destruct I as [I|I]; [|auto].
    apply eqb_eq in I. congruence.
Qed.

Section Handler.
Context {F : Type} `{PyNum F}.

Implicit Types (w : World (Stats F)) (data : Body).

Lemma translate_echoes_blank languages clock data text w :
  q data = Some text ->
  blank text = true ->
  translate languages clock (Some data) w =
    (Return (TranslationJson text (get_default (source data) (lit "th"))
               (get_default (target data) (lit "en")) text None, 200), w).
Proof.
  intros Q B. unfold translate, translate_body, try_except.
  rewrite Q, truthy_strip, B. reflexivity.
Qed.

Lemma translate_source_missing languages clock data text w :
  q data = Some text ->
  blank text = false ->
  ~ In (get_default (source data) (lit "th")) (map code languages) ->
  translate languages clock (Some data) w =
    (Return (ErrorJson (lit "Source language " ++ dquote
                          ++ get_default (source data) (lit "th")
                          ++ dquote ++ lit " not available"), 400), w).
Proof.
  intros Q B N. unfold translate, translate_body, try_except.
  rewrite Q, truthy_strip, B. cbn [negb].
  rewrite (find_language_none _ _ N). reflexivity.
Qed.

Lemma translate_target_missing languages clock data text w :
  q data = Some text ->
  blank text = false ->
  In (get_default (source data) (lit "th")) (map code languages) ->
  ~ In (get_default (target data) (lit "en")) (map code languages) ->
  translate languages clock (Some data) w =
    (Return (ErrorJson (lit "Target language " ++ dquote
                          ++ get_default (target data) (lit "en")
                          ++ dquote ++ lit " not available"), 400), w).
Proof.
  intros Q B I N. unfold translate, translate_body, try_except.
  rewrite Q, truthy_strip, B. cbn [negb].
  destruct (find_language_some _ _ I) as (lang & -> & _).
  rewrite (find_language_none _ _ N). reflexivity.
Qed.

End Handler.

End FlaskFacts.

(** ** The properties of the specification *)

(** *** Blank text on the single-translation endpoints *)

(** C1, as stated, fails on the FastAPI service: a text made of one space,
    sent to a service whose model is loaded, is answered with the error 400
    and not with a response that echoes it. *)
Lemma fastapi_rejects_blank_text :
  blank (lit " ") = true /\
  FastAPI.translate sample_globals (float_clock 100 100.25)
    (request_of " " "th" "en") fastapi_world
  = (Raise (mkHTTPException 400 (lit "Text cannot be empty")), fastapi_world) /\
  forall response,
    fst (FastAPI.translate sample_globals (float_clock 100 100.25)
           (request_of " " "th" "en") fastapi_world) <> Return response.
Proof.
  split; [reflexivity|]. split; [reflexivity|].
  intros response. vm_compute. discriminate.
Qed.

(** C1 (amended): for a text that is present but empty or made of whitespace
    only, neither service calls the engine or touches its statistics.  The
    Flask service answers 200 with the text unchanged as both [original] and
    [translatedText].  The FastAPI service never echoes it: a whitespace-only
    text of 1 to 1000 characters reaches the handler, which rejects it with
    the error 400 (503 when no model is loaded); the empty text, like a
    whitespace-only text of more than 1000 characters, breaks the length
    bounds of the request model and is answered 422 before the handler
    runs. *)
Theorem blank_text_is_a_no_op :
  forall {F : Type} `{PyNum F} (t : pystr),
    blank t = true ->
    (forall languages clock data (w : World (Flask.Stats F)),
        Flask.q data = Some t ->
        Flask.translate languages clock (Some data) w =
          (Return (Flask.TranslationJson t
                     (Flask.get_default (Flask.source data) (lit "th"))
                     (Flask.get_default (Flask.target data) (lit "en")) t None,
                   200), w)) /\
    (forall g clock request (w : World (FastAPI.Stats F)),
        FastAPI.text request = t ->
        FastAPI.post_translate g clock request w =
          (if (1 <=? len t) && (len t <=? 1000)
           then
             FastAPI.Handled
               (Raise (match FastAPI.th_en_translation g with
                       | Some _ => mkHTTPException 400 (lit "Text cannot be empty")
                       | None =>
                           mkHTTPException 503
                             (lit "Translation model not loaded. Service unavailable.")
                       end))
           else FastAPI.Unprocessable, w)).
Proof.
  intros F num t B. split.
  - intros languages clock data w Q.
    apply FlaskFacts.translate_echoes_blank; assumption.
  - intros g clock request w <-.
    unfold FastAPI.post_translate, FastAPI.TranslateRequest_valid.
    destruct ((1 <=? len (FastAPI.text request))
              && (len (FastAPI.text request) <=? 1000)); [|reflexivity].
    destruct (FastAPI.th_en_translation g) as [translation|] eqn:L.
    + rewrite (FastAPIFacts.translate_blank g translation) by assumption.
      reflexivity.
    + rewrite FastAPIFacts.translate_unloaded by assumption. reflexivity.
Qed.

Lemma blank_text_is_a_no_op_witness :
  Flask.translate sample_languages (float_clock 100 100.25)
    (Some (flask_body " " "th" "en")) flask_world
  = (Return (Flask.TranslationJson (lit " ") (lit "th") (lit "en") (lit " ") None,
             200), flask_world) /\
  FastAPI.post_translate sample_globals (float_clock 100 100.25)
    (request_of " " "th" "en") fastapi_world
  = (FastAPI.Handled (Raise (mkHTTPException 400 (lit "Text cannot be empty"))),
     fastapi_world).
Proof.
  destruct (blank_text_is_a_no_op (F := float) (lit " ") eq_refl) as [Fl Fa].
  split.
  - apply Fl. reflexivity.
  - apply (Fa sample_globals (float_clock 100 100.25) (request_of " " "th" "en")
             fastapi_world eq_refl).
Defined.

(** The empty text at the FastAPI endpoint: answered 422 by the request
    model, with the statistics and the log unchanged. *)
Example empty_text_is_unprocessable :
  FastAPI.post_translate sample_globals (float_clock 100 100.25)
    (request_of EmptyString "th" "en") fastapi_world
  = (FastAPI.Unprocessable, fastapi_world).
Proof. reflexivity. Qed.

(** *** Languages that are not installed *)

(** C4, as stated, fails in two places.  The FastAPI service, with only [th]
    and [en] installed, translates a request that names [fr] and [de]: it
    calls the engine and answers with a success.  The Flask service echoes a
    blank text before it looks at the languages. *)
Lemma uninstalled_language_is_not_always_an_error :
  (FastAPI.installed_languages sample_globals = Some sample_languages /\
   ~ In (lit "fr") (map code sample_languages) /\
   let r := FastAPI.translate sample_globals (float_clock 100 100.25)
              (request_of "a" "fr" "de") fastapi_world in
   is_Return (fst r) = true /\
   calls (snd r) = [(lit "a", Returns (lit "EN:a"))]) /\
  (Flask.translate sample_languages (float_clock 100 100.25)
     (Some (flask_body " " "fr" "de")) flask_world
   = (Return (Flask.TranslationJson (lit " ") (lit "fr") (lit "de") (lit " ") None,
              200), flask_world)).
Proof.
  split; [split; [reflexivity|split]|reflexivity].
  - simpl. intros [E|[E|[]]]; discriminate.
  - split; reflexivity.
Qed.

(** C4 (amended): in the Flask service, a request whose text is present and
    not blank, naming a source or a target code that is not installed, is
    answered with the error 400 whose message names the missing code: the
    source code when the source is missing, otherwise the target code.  The
    engine's translate operation is not called and the statistics are
    unchanged. *)
Theorem flask_rejects_uninstalled_language :
  forall {F : Type} `{PyNum F} languages clock data t (w : World (Flask.Stats F)),
    Flask.q data = Some t ->
    blank t = false ->
    let source_code := Flask.get_default (Flask.source data) (lit "th") in
    let target_code := Flask.get_default (Flask.target data) (lit "en") in
    ~ In source_code (map code languages) \/ ~ In target_code (map code languages) ->
    exists label missing,
      ~ In missing (map code languages) /\
      (label = lit "Source language " /\ missing = source_code \/
       label = lit "Target language " /\ missing = target_code /\
       In source_code (map code languages)) /\
      Flask.translate languages clock (Some data) w =
        (Return (Flask.ErrorJson (label ++ dquote ++ missing ++ dquote
                                    ++ lit " not available"), 400), w).
Proof.
  intros F num languages clock data t w Q B source_code target_code M.
  destruct (in_dec (list_eq_dec N.eq_dec) source_code (map code languages))
    as [I|N].
  - destruct M as [M|M]; [contradiction|].
    exists (lit "Target language "), target_code.
    split; [exact M|]. split; [right; auto|].
    apply (FlaskFacts.translate_target_missing _ _ _ t); assumption.
  - exists (lit "Source language "), source_code.
    split; [exact N|]. split; [left; auto|].
    apply (FlaskFacts.translate_source_missing _ _ _ t); assumption.
Qed.

Lemma flask_rejects_uninstalled_language_witness :
  exists label missing,
    ~ In missing (map code sample_languages) /\
    (label = lit "Source language " /\ missing = lit "fr" \/
     label = lit "Target language " /\ missing = lit "en" /\
     In (lit "fr") (map code sample_languages)) /\
    Flask.translate sample_languages (float_clock 100 100.25)
      (Some (flask_body "a" "fr" "en")) flask_world =
      (Return (Flask.ErrorJson (label ++ dquote ++ missing ++ dquote
                                  ++ lit " not available"), 400), flask_world).
Proof.
  apply (flask_rejects_uninstalled_language (F := float) sample_languages
           (float_clock 100 100.25) (flask_body "a" "fr" "en") (lit "a")
           flask_world eq_refl eq_refl).
  left. simpl. intros [E|[E|[]]]; discriminate.
Defined.

(** *** Failures of the engine *)

(** C5: when the engine raises on a single-translation request, the FastAPI
    service answers with the error 500 and adds one to the error counter;
    the request count, the character total and the running mean keep their
    values. *)
Theorem backend_failure_counts_one_error :
  forall {F : Type} `{PyNum F} g translation clock request message
         (w : World (FastAPI.Stats F)),
    FastAPI.th_en_translation g = Some translation ->
    blank (FastAPI.text request) = false ->
    translation (FastAPI.text request) = Raises message ->
    let r := FastAPI.translate g clock request w in
    fst r = Raise (mkHTTPException 500 (lit "Translation failed: " ++ message)) /\
    FastAPI.errors (stats (snd r)) = FastAPI.errors (stats w) + 1 /\
    FastAPI.total_requests (stats (snd r)) = FastAPI.total_requests (stats w) /\
    FastAPI.total_characters (stats (snd r)) = FastAPI.total_characters (stats w) /\
    FastAPI.average_time_ms (stats (snd r)) = FastAPI.average_time_ms (stats w).
Proof.
  intros F num g translation clock request message w L B T r. subst r.
  rewrite (FastAPIFacts.translate_nonblank g translation) by assumption.
  cbv zeta. rewrite T. cbn. auto.
Qed.

Lemma backend_failure_counts_one_error_witness :
  let r := FastAPI.translate sample_globals (float_clock 100 100.25)
             (request_of "boom" "th" "en") fastapi_world in
  fst r = Raise (mkHTTPException 500
                   (lit "Translation failed: " ++ lit "engine failure")) /\
  FastAPI.errors (stats (snd r)) = FastAPI.errors (stats fastapi_world) + 1 /\
  FastAPI.total_requests (stats (snd r))
    = FastAPI.total_requests (stats fastapi_world) /\
  FastAPI.total_characters (stats (snd r))
    = FastAPI.total_characters (stats fastapi_world) /\
  FastAPI.average_time_ms (stats (snd r))
    = FastAPI.average_time_ms (stats fastapi_world).
Proof.
  exact (backend_failure_counts_one_error (F := float) sample_globals
           sample_translation (float_clock 100 100.25)
           (request_of "boom" "th" "en") (lit "engine failure") fastapi_world
           eq_refl eq_refl eq_refl).
Defined.

(** C6: when the engine raises on an entry of a batch, the FastAPI service
    answers the whole batch with the error 500, whose only content is the
    message of the failing call (no translated text is returned), and adds
    the size of the batch to the error counter. *)
Theorem batch_failure_aborts_whole_batch :
  forall {F : Type} `{PyNum F} g translation clock request
         (w : World (FastAPI.Stats F)),
    FastAPI.th_en_translation g = Some translation ->
    len (FastAPI.texts request) <= 100 ->
    (exists t message,
        In t (FastAPI.texts request) /\ blank t = false /\
        translation t = Raises message) ->
    let r := FastAPI.translate_batch g clock request w in
    (exists t message,
        In t (FastAPI.texts request) /\ translation t = Raises message /\
        fst r = Raise (mkHTTPException 500
                         (lit "Batch translation failed: " ++ message))) /\
    FastAPI.errors (stats (snd r))
      = FastAPI.errors (stats w) + len (FastAPI.texts request) /\
    FastAPI.total_requests (stats (snd r)) = FastAPI.total_requests (stats w) /\
    FastAPI.average_time_ms (stats (snd r)) = FastAPI.average_time_ms (stats w).
Proof.
  intros F num g translation clock request w L B (t & message & I & Bt & T) r.
  assert (P : forallb (passes translation) (FastAPI.texts request)
              = false).
  { apply not_true_is_false. intros P.
    rewrite forallb_forall in P. specialize (P t I).
    unfold passes, successful in P. cbn [snd] in P.
    rewrite Bt, T in P. discriminate. }
  destruct (FastAPIFacts.first_failure translation _ P)
    as (pre & t' & post & m & E & Ppre & Bt' & T').
  subst r.
  rewrite (FastAPIFacts.translate_batch_raises g translation clock request w
             pre t' post m) by assumption.
  cbn. split; [|auto].
  exists t', m. split; [|auto].
  rewrite E. apply in_or_app. right. left. reflexivity.
Qed.

Lemma batch_failure_aborts_whole_batch_witness :
  let r := FastAPI.translate_batch sample_globals (float_clock 100 100.25)
             (batch_of ["a"; "boom"; "b"]%string) fastapi_world in
  (exists t message,
      In t (map lit ["a"; "boom"; "b"]%string) /\
      sample_translation t = Raises message /\
      fst r = Raise (mkHTTPException 500
                       (lit "Batch translation failed: " ++ message))) /\
  FastAPI.errors (stats (snd r)) = FastAPI.errors (stats fastapi_world) + 3 /\
  FastAPI.total_requests (stats (snd r))
    = FastAPI.total_requests (stats fastapi_world) /\
  FastAPI.average_time_ms (stats (snd r))
    = FastAPI.average_time_ms (stats fastapi_world).
Proof.
  apply (batch_failure_aborts_whole_batch (F := float) sample_globals
           sample_translation (float_clock 100 100.25)
           (batch_of ["a"; "boom"; "b"]%string) fastapi_world eq_refl).
  - vm_compute. discriminate.
  - exists (lit "boom"), (lit "engine failure").
    split; [right; left; reflexivity|]. split; reflexivity.
Defined.

(** *** The bound on the size of a batch *)

(** C7, as stated, fails at the endpoint: a batch of 101 texts, sent to a
    service whose model is loaded, breaks the [max_length=100] bound of the
    request model and is answered 422; the handler, whose own check would
    raise the error 400, is not run. *)
Lemma oversized_batch_does_not_get_the_400 :
  let request := {| FastAPI.texts := repeat (lit "boom") 101;
                    FastAPI.batch_from_lang := lit "th";
                    FastAPI.batch_to_lang := lit "en" |} in
  len (FastAPI.texts request) = 101 /\
  FastAPI.post_translate_batch sample_globals (float_clock 100 100.25) request
    fastapi_world = (FastAPI.Unprocessable, fastapi_world) /\
  forall detail,
    fst (FastAPI.post_translate_batch sample_globals (float_clock 100 100.25)
           request fastapi_world)
    <> FastAPI.Handled (Raise (mkHTTPException 400 detail)).
Proof.
  split; [reflexivity|]. split; [reflexivity|].
  intros detail. vm_compute. discriminate.
Qed.

(** C7 (amended): a batch of more than 100 texts is rejected before the
    engine is called and with the statistics unchanged.  The rejection the
    client gets is the 422 of the request model's [max_length=100] bound;
    the handler's own check, which raises the error 400 for such a batch
    when the model is loaded, sits behind it and is reached only by a call
    to the handler that goes round the validation. *)
Theorem oversized_batch_is_unprocessable :
  forall {F : Type} `{PyNum F} g clock request (w : World (FastAPI.Stats F)),
    100 < len (FastAPI.texts request) ->
    FastAPI.post_translate_batch g clock request w = (FastAPI.Unprocessable, w) /\
    (forall translation,
        FastAPI.th_en_translation g = Some translation ->
        FastAPI.translate_batch g clock request w =
          (Raise (mkHTTPException 400
                    (lit "Batch size too large (max 100 texts)")), w)).
Proof.
  intros F num g clock request w G. split.
  - unfold FastAPI.post_translate_batch, FastAPI.BatchTranslateRequest_valid.
    replace (len (FastAPI.texts request) <=? 100) with false; [reflexivity|].
    symmetry. apply Z.leb_gt. exact G.
  - intros translation L.
    apply (FastAPIFacts.translate_batch_too_large g translation); assumption.
Qed.

Lemma oversized_batch_is_unprocessable_witness :
  let request := {| FastAPI.texts := repeat (lit "boom") 101;
                    FastAPI.batch_from_lang := lit "th";
                    FastAPI.batch_to_lang := lit "en" |} in
  FastAPI.post_translate_batch sample_globals (float_clock 100 100.25) request
    fastapi_world = (FastAPI.Unprocessable, fastapi_world) /\
  FastAPI.translate_batch sample_globals (float_clock 100 100.25) request
    fastapi_world =
    (Raise (mkHTTPException 400 (lit "Batch size too large (max 100 texts)")),
     fastapi_world).
Proof.
  intros request.
  destruct (oversized_batch_is_unprocessable (F := float) sample_globals
              (float_clock 100 100.25) request fastapi_world) as [U H400].
  - vm_compute. reflexivity.
  - split; [exact U|]. apply (H400 sample_translation). reflexivity.
Defined.

(** C10: an empty batch passes the size check and the loop, then fails on
    the division by the length of the list: the answer is the error 500
    carrying the message of the [ZeroDivisionError]; nothing is added to any
    counter and the engine is not called. *)
Theorem empty_batch_fails_with_500 :
  forall {F : Type} `{PyNum F} g translation clock request
         (w : World (FastAPI.Stats F)),
    FastAPI.th_en_translation g = Some translation ->
    FastAPI.texts request = [] ->
    FastAPI.translate_batch g clock request w =
      (Raise (mkHTTPException 500
                (lit "Batch translation failed: " ++ str_exc ZeroDivisionError)),
       w).
Proof.
  intros F num g translation clock request w L E.
  rewrite (FastAPIFacts.translate_batch_passes g translation);
    try assumption; rewrite E; try reflexivity; [|vm_compute; discriminate].
  cbn. unfold characters_of, calls_for. cbn.
  change (len []) with 0.
  rewrite FastAPIFacts.add_characters_0, FastAPIFacts.add_requests_0,
    FastAPIFacts.add_errors_0, app_nil_r, FastAPIFacts.world_eta.
  reflexivity.
Qed.

Lemma empty_batch_fails_with_500_witness :
  FastAPI.translate_batch sample_globals (float_clock 100 100.25)
    (batch_of []) fastapi_world =
    (Raise (mkHTTPException 500
              (lit "Batch translation failed: " ++ lit "float division by zero")),
     fastapi_world).
Proof.
  exact (empty_batch_fails_with_500 (F := float) sample_globals
           sample_translation (float_clock 100 100.25) (batch_of [])
           fastapi_world eq_refl eq_refl).
Defined.

(** *** Batches that go through *)

(** C2, as stated, fails in two places.  A batch holding one blank text is
    answered with a success and without a call of the engine, but it is
    counted: the request counter goes from 0 to 1.  The empty batch, which is
    within the bound, is answered with an error and not with a list. *)
Lemma blank_entry_is_counted_and_empty_batch_fails :
  (let r := FastAPI.translate_batch sample_globals (float_clock 100 100.25)
              (batch_of [" "]%string) fastapi_world in
   is_Return (fst r) = true /\
   calls (snd r) = [] /\
   FastAPI.total_requests (stats fastapi_world) = 0 /\
   FastAPI.total_requests (stats (snd r)) = 1 /\
   stats (snd r) <> stats fastapi_world) /\
  (forall response,
      fst (FastAPI.translate_batch sample_globals (float_clock 100 100.25)
             (batch_of []) fastapi_world) <> Return response).
Proof.
  split.
  - repeat split. intros E.
    apply (f_equal FastAPI.total_requests) in E.
    vm_compute in E. discriminate.
  - intros response. vm_compute. discriminate.
Qed.

(** C2 (amended): for a batch of at least one and at most 100 texts whose
    entries that are not blank are all translated by the engine, the FastAPI
    service answers with a list of the same length and in the same order: the
    empty string for a blank entry, the engine's translation for any other.
    The engine is called on the entries that are not blank, in input order,
    and on nothing else; the character total grows by the lengths of those
    entries only; the request counter grows by the size of the batch, blank
    entries included; the running mean and the error counter are unchanged. *)
Theorem batch_translates_in_order :
  forall {F : Type} `{PyNum F} g translation clock request
         (w : World (FastAPI.Stats F)),
    FastAPI.th_en_translation g = Some translation ->
    FastAPI.texts request <> [] ->
    len (FastAPI.texts request) <= 100 ->
    (forall t, In t (FastAPI.texts request) -> blank t = false ->
               exists translated_text, translation t = Returns translated_text) ->
    exists response w',
      FastAPI.translate_batch g clock request w = (Return response, w') /\
      FastAPI.originals response = FastAPI.texts request /\
      Forall2 (fun t out =>
                 if blank t then out = [] else translation t = Returns out)
        (FastAPI.texts request) (FastAPI.batch_translated response) /\
      calls w' = calls w ++ map (fun t => (t, translation t))
                              (filter nonblank (FastAPI.texts request)) /\
      FastAPI.total_characters (stats w')
        = FastAPI.total_characters (stats w)
          + fold_right (fun t n => len t + n) 0
              (filter nonblank (FastAPI.texts request)) /\
      FastAPI.total_requests (stats w')
        = FastAPI.total_requests (stats w) + len (FastAPI.texts request) /\
      FastAPI.average_time_ms (stats w') = FastAPI.average_time_ms (stats w) /\
      FastAPI.errors (stats w') = FastAPI.errors (stats w).
Proof.
  intros F num g translation clock request w L NE B T.
  assert (P : forallb (passes translation) (FastAPI.texts request)
              = true).
  { apply forallb_forall. intros t I.
    unfold passes, successful. cbn [snd].
    destruct (blank t) eqn:Bt; [reflexivity|].
    destruct (T t I Bt) as [out ->]. reflexivity. }
  rewrite (FastAPIFacts.translate_batch_passes g translation) by assumption.
  cbv zeta.
  destruct (len (FastAPI.texts request) =? 0) eqn:Z.
  { apply Z.eqb_eq in Z. unfold len in Z.
    destruct (FastAPI.texts request); [congruence|discriminate]. }
  eexists _, _. split; [reflexivity|]. cbn.
  repeat split; try reflexivity.
  clear - T. induction (FastAPI.texts request) as [|t ts IH]; cbn [map].
  - constructor.
  - constructor.
    + unfold batch_entry. destruct (blank t) eqn:Bt; [reflexivity|].
      destruct (T t (or_introl eq_refl) Bt) as [out ->]. reflexivity.
    + apply IH. intros t' I. apply T. right. exact I.
Qed.

Lemma batch_translates_in_order_witness :
  exists response w',
    FastAPI.translate_batch sample_globals (float_clock 100 100.25)
      (batch_of ["a"; EmptyString; "b"]%string) fastapi_world = (Return response, w') /\
    FastAPI.originals response = map lit ["a"; EmptyString; "b"]%string /\
    FastAPI.batch_translated response = [lit "EN:a"; []; lit "EN:b"] /\
    calls w' = [(lit "a", Returns (lit "EN:a")); (lit "b", Returns (lit "EN:b"))] /\
    FastAPI.total_characters (stats w') = 2 /\
    FastAPI.total_requests (stats w') = 3.
Proof.
  destruct (batch_translates_in_order (F := float) sample_globals
              sample_translation (float_clock 100 100.25)
              (batch_of ["a"; EmptyString; "b"]%string) fastapi_world eq_refl)
    as (response & w' & E & O & _ & C & Ch & R & _).
  - discriminate.
  - vm_compute. discriminate.
  - intros t I B. unfold sample_translation.
    destruct (PyStr.eqb t (lit "boom")) eqn:K; [|eauto].
    apply eqb_eq in K. subst t.
    destruct I as [I|[I|[I|[]]]]; discriminate.
  - exists response, w'. split; [exact E|]. split; [exact O|].
    split; [|split; [exact C|split; [exact Ch|exact R]]].
    vm_compute in E. injection E as <- _. reflexivity.
Defined.

(** *** The language codes of a FastAPI request *)

Lemma startup_event_loads_th_en languages g :
  FastAPI.startup_event languages = Some g ->
  exists th_lang en_lang translation,
    find_language languages (lit "th") = Some th_lang /\
    find_language languages (lit "en") = Some en_lang /\
    get_translation th_lang (code en_lang) = Some translation /\
    FastAPI.th_en_translation g = Some translation.
Proof.
  unfold FastAPI.startup_event.
  destruct (find_language languages (lit "th")) as [th_lang|]; [|discriminate].
  destruct (find_language languages (lit "en")) as [en_lang|]; [|discriminate].
  destruct (get_translation th_lang (code en_lang)) as [translation|] eqn:G;
    [|discriminate].
  destruct (translation FastAPI.test_text); [|discriminate].
  intros E. injection E as <-. exists th_lang, en_lang, translation. auto.
Qed.




(** *** The character total *)

Lemma counted_characters_app (a b : list call) :
  counted_characters (a ++ b) = counted_characters a + counted_characters b.
Proof.
  induction a as [|c a IH]; simpl; [reflexivity|].
  rewrite IH. destruct (successful c); lia.
Qed.

Section CharacterTotal.
Context {F : Type} `{PyNum F}.

Implicit Types (w : World (FastAPI.Stats F)).

Lemma characters_match_log_ext w w' :
  FastAPI.total_characters (stats w') = FastAPI.total_characters (stats w) ->
  calls w' = calls w ->
  characters_match_log w -> characters_match_log w'.
Proof. unfold characters_match_log. intros -> ->. tauto. Qed.

(** One call of the engine on a text that is not blank, the character
    total being raised exactly when the call returns. *)
Lemma characters_match_log_call w w' t o :
  blank t = false ->
  calls w' = calls w ++ [(t, o)] ->
  FastAPI.total_characters (stats w')
    = FastAPI.total_characters (stats w)
      + (if successful (t, o) then len t else 0) ->
  characters_match_log w -> characters_match_log w'.
Proof.
  unfold characters_match_log. intros B -> -> [T N]. split.
  - rewrite counted_characters_app, T. simpl.
    destruct (successful (t, o)); lia.
  - apply Forall_app. split; [exact N|]. constructor; [exact B|constructor].
Qed.

Lemma translate_keeps_characters g clock request w :
  characters_match_log w ->
  characters_match_log (snd (FastAPI.translate g clock request w)).
Proof.
  intros I.
  destruct (FastAPI.th_en_translation g) as [translation|] eqn:L.
  - destruct (blank (FastAPI.text request)) eqn:B.
    + rewrite (FastAPIFacts.translate_blank g translation) by assumption.
      exact I.
    + rewrite (FastAPIFacts.translate_nonblank g translation) by assumption.
      cbv zeta.
      apply (characters_match_log_call w _ (FastAPI.text request)
               (translation (FastAPI.text request))); try assumption.
      * destruct (translation (FastAPI.text request));
          [destruct (FastAPI.total_requests (stats w) + 1 =? 0)|]; reflexivity.
      * unfold successful. cbn [snd].
        destruct (translation (FastAPI.text request));
          [destruct (FastAPI.total_requests (stats w) + 1 =? 0)|]; cbn; lia.
  - rewrite FastAPIFacts.translate_unloaded by assumption. exact I.
Qed.

Lemma translate_loop_keeps_characters translation ts : forall translated w,
  characters_match_log w ->
  characters_match_log
    (snd (FastAPI.translate_loop translation ts translated w)).
Proof.
  induction ts as [|t ts IH]; intros translated w I; [exact I|].
  cbn [FastAPI.translate_loop]. rewrite FastAPIFacts.nonblank_test.
  destruct (blank t) eqn:B; cbn [negb]; [apply IH; exact I|].
  unfold bind at 1, call_translate.
  destruct (translation t) as [out|message] eqn:T.
  - unfold bind, modify. apply IH. cbn [stats calls].
    apply (characters_match_log_call w _ t (Returns out)); auto.
  - cbn [snd].
    apply (characters_match_log_call w _ t (Raises message)); auto.
    cbn. lia.
Qed.

Lemma translate_batch_keeps_characters g clock request w :
  characters_match_log w ->
  characters_match_log (snd (FastAPI.translate_batch g clock request w)).
Proof.
  intros I. unfold FastAPI.translate_batch.
  destruct (FastAPI.th_en_translation g) as [translation|]; [|exact I].
  destruct (len (FastAPI.texts request) >? 100); [exact I|].
  pose proof (translate_loop_keeps_characters translation
                (FastAPI.texts request) [] w I) as I'.
  unfold try_except, bind at 1.
  destruct (FastAPI.translate_loop translation (FastAPI.texts request) [] w)
    as [[translated|e] w1]; cbn [snd] in I'.
  - unfold bind, modify, truediv_int; cbn [stats calls].
    destruct (len (FastAPI.texts request) =? 0); cbn [snd];
      revert I'; apply characters_match_log_ext; reflexivity.
  - cbn [snd]. revert I'. apply characters_match_log_ext; reflexivity.
Qed.

Lemma serve_keeps_characters g rs : forall w,
  characters_match_log w -> characters_match_log (FastAPI.serve g rs w).
Proof.
  unfold FastAPI.serve.
  induction rs as [|r rs IH]; intros w I; [exact I|].
  cbn [fold_left]. apply IH. destruct r as [clock request|clock request].
  - apply translate_keeps_characters; exact I.
  - apply translate_batch_keeps_characters; exact I.
Qed.

(** The log against the requests. *)

Lemma translated_log_app (a b : list call) :
  translated_log (a ++ b) = translated_log a ++ translated_log b.
Proof. unfold translated_log. rewrite filter_app, map_app. reflexivity. Qed.

Lemma translate_log g clock request w :
  translated_log
    (calls (FastAPI.handle g (FastAPI.PostTranslate clock request) w))
  = translated_log (calls w)
    ++ translated_texts g (FastAPI.PostTranslate clock request).
Proof.
  unfold translated_texts. cbn [FastAPI.handle translated_prefix].
  destruct (FastAPI.th_en_translation g) as [translation|] eqn:L.
  - destruct (blank (FastAPI.text request)) eqn:B.
    + rewrite (FastAPIFacts.translate_blank g translation) by assumption.
      cbn [snd]. rewrite app_nil_r. reflexivity.
    + rewrite (FastAPIFacts.translate_nonblank g translation) by assumption.
      cbv zeta.
      destruct (translation (FastAPI.text request));
        [destruct (FastAPI.total_requests (stats w) + 1 =? 0)|];
        cbn [snd calls]; rewrite translated_log_app; reflexivity.
  - rewrite FastAPIFacts.translate_unloaded by assumption.
    cbn [snd]. rewrite app_nil_r. reflexivity.
Qed.

Lemma translate_loop_log translation ts : forall translated w,
  translated_log
    (calls (snd (FastAPI.translate_loop translation ts translated w)))
  = translated_log (calls w) ++ translated_prefix translation ts.
Proof.
  induction ts as [|t ts IH]; intros translated w.
  - cbn. rewrite app_nil_r. reflexivity.
  - cbn [FastAPI.translate_loop translated_prefix].
    rewrite FastAPIFacts.nonblank_test.
    destruct (blank t) eqn:B; cbn [negb]; [apply IH|].
    unfold bind at 1, call_translate.
    destruct (translation t) as [out|message] eqn:T.
    + unfold bind, modify. rewrite IH. cbn [stats calls].
      rewrite translated_log_app, <- app_assoc. reflexivity.
    + cbn [snd calls]. rewrite translated_log_app. reflexivity.
Qed.

Lemma translate_batch_log g clock request w :
  translated_log
    (calls (FastAPI.handle g (FastAPI.PostTranslateBatch clock request) w))
  = translated_log (calls w)
    ++ translated_texts g (FastAPI.PostTranslateBatch clock request).
Proof.
  unfold translated_texts. cbn [FastAPI.handle]. unfold FastAPI.translate_batch.
  destruct (FastAPI.th_en_translation g) as [translation|];
    [|cbn [snd]; rewrite app_nil_r; reflexivity].
  destruct (len (FastAPI.texts request) >? 100);
    [cbn [snd]; rewrite app_nil_r; reflexivity|].
  rewrite <- (translate_loop_log translation (FastAPI.texts request) [] w).
  unfold try_except, bind at 1.
  destruct (FastAPI.translate_loop translation (FastAPI.texts request) [] w)
    as [[translated|e] w1]; cbn [snd].
  - unfold bind, modify, truediv_int; cbn [stats calls].
    destruct (len (FastAPI.texts request) =? 0); reflexivity.
  - reflexivity.
Qed.

Lemma serve_log g rs : forall w,
  translated_log (calls (FastAPI.serve g rs w))
  = translated_log (calls w) ++ flat_map (translated_texts g) rs.
Proof.
  unfold FastAPI.serve.
  induction rs as [|r rs IH]; intros w.
  - cbn. rewrite app_nil_r. reflexivity.
  - cbn [fold_left flat_map]. rewrite IH, app_assoc. f_equal.
    destruct r as [clock request|clock request].
    + apply translate_log.
    + apply translate_batch_log.
Qed.

Lemma counted_characters_log (cs : list call) :
  counted_characters cs = total_len (translated_log cs).
Proof.
  unfold translated_log.
  induction cs as [|c cs IH]; cbn [counted_characters fold_right filter];
    [reflexivity|].
  fold (counted_characters cs). rewrite IH.
  destruct (successful c); reflexivity.
Qed.

End CharacterTotal.

(** C8: after any sequence of single and batch requests served from reset
    statistics, the character total is the sum of the lengths of the texts
    that were translated: for a single request its text, for a batch the
    entries up to the first failure of the engine, blank texts left out in
    both.  These are, in order, the texts on which the log shows a call of
    the engine that returned, and the engine is never called on a blank
    text. *)
Theorem total_characters_counts_translated_texts :
  forall {F : Type} `{PyNum F} g (rs : list (FastAPI.Request F)),
    let w := FastAPI.serve g rs FastAPI.reset_world in
    FastAPI.total_characters (stats w)
      = total_len (flat_map (translated_texts g) rs) /\
    translated_log (calls w) = flat_map (translated_texts g) rs /\
    Forall (fun c => blank (fst c) = false) (calls w).
Proof.
  intros F num g rs w.
  destruct (serve_keeps_characters g rs FastAPI.reset_world) as [T N];
    [split; [reflexivity|constructor]|].
  pose proof (serve_log g rs FastAPI.reset_world) as L.
  cbn [FastAPI.reset_world calls translated_log filter map app] in L.
  subst w. rewrite T, counted_characters_log, L. auto.
Qed.

(** A batch that fails half-way: the text translated before the failure is
    part of the log and of the character total. *)
Example failed_batch_counts_translated_prefix :
  let w := FastAPI.serve sample_globals
             [FastAPI.PostTranslateBatch (float_clock 100 100.25)
                (batch_of ["a"; "boom"; "b"]%string)] fastapi_world in
  calls w = [(lit "a", Returns (lit "EN:a"));
             (lit "boom", Raises (lit "engine failure"))] /\
  FastAPI.total_characters (stats w) = 1.
Proof. split; reflexivity. Qed.

(** *** The running mean of the latency *)

Section RunningMean.
Context {F : Type} `{PyNum F}.

Implicit Types (w : World (FastAPI.Stats F)).

(** A single translation that succeeds went through the engine and the
    statistics update. *)
Lemma translate_succeeds g clock request w :
  FastAPI.succeeds g (FastAPI.PostTranslate clock request) w = true ->
  FastAPI.total_requests (stats w) + 1 <> 0 /\
  stats (FastAPI.handle g (FastAPI.PostTranslate clock request) w)
    = stats_after_translation clock (FastAPI.text request) (stats w).
Proof.
  cbn [FastAPI.succeeds FastAPI.handle].
  destruct (FastAPI.th_en_translation g) as [translation|] eqn:L.
  - destruct (blank (FastAPI.text request)) eqn:B.
    + rewrite (FastAPIFacts.translate_blank g translation) by assumption.
      discriminate.
    + rewrite (FastAPIFacts.translate_nonblank g translation) by assumption.
      cbv zeta.
      destruct (translation (FastAPI.text request)); [|discriminate].
      destruct (FastAPI.total_requests (stats w) + 1 =? 0) eqn:Z;
        [discriminate|].
      intros _. apply Z.eqb_neq in Z. split; [exact Z|reflexivity].
  - rewrite FastAPIFacts.translate_unloaded by assumption. discriminate.
Qed.

Lemma serve_app g rs rs' w :
  FastAPI.serve g (rs ++ rs') w = FastAPI.serve g rs' (FastAPI.serve g rs w).
Proof. unfold FastAPI.serve. apply fold_left_app. Qed.

Lemma all_succeed_app g rs rs' : forall w,
  all_succeed g (rs ++ rs') w = true ->
  all_succeed g rs w = true /\ all_succeed g rs' (FastAPI.serve g rs w) = true.
Proof.
  induction rs as [|r rs IH]; intros w A; [split; [reflexivity|exact A]|].
  cbn [app all_succeed] in *. apply andb_true_iff in A as [S A].
  destruct (IH _ A) as [A1 A2]. rewrite S, A1. split; [reflexivity|exact A2].
Qed.

(** The request count after a sequence of successes. *)
Lemma total_requests_after_successes g l : forall w,
  all_succeed g (singles l) w = true ->
  FastAPI.total_requests (stats (FastAPI.serve g (singles l) w))
    = FastAPI.total_requests (stats w) + len l.
Proof.
  induction l as [|[clock request] l IH]; intros w A.
  - cbn. lia.
  - cbn [singles map all_succeed fst snd] in A.
    apply andb_true_iff in A as [S A].
    destruct (translate_succeeds g clock request w S) as [_ E].
    change (FastAPI.serve g (singles ((clock, request) :: l)) w)
      with (FastAPI.serve g (singles l)
              (FastAPI.handle g (FastAPI.PostTranslate clock request) w)).
    rewrite (IH _ A), E. cbn. unfold len. cbn [List.length]. lia.
Qed.

End RunningMean.

(** **** In exact arithmetic *)

Lemma inject_Z_nonzero (n : Z) : n <> 0 -> ~ (inject_Z n == 0)%Q.
Proof. intros N E. unfold Qeq in E. simpl in E. lia. Qed.

Lemma mean_step (a e : Q) (n : Z) :
  n + 1 <> 0 ->
  ((a * inject_Z (n + 1 - 1) + e) / inject_Z (n + 1) * inject_Z (n + 1)
   == a * inject_Z n + e)%Q.
Proof.
  intros N. replace (n + 1 - 1) with n by lia.
  field. apply inject_Z_nonzero. exact N.
Qed.

(** The running mean times the request count is the sum of the samples. *)
Lemma mean_invariant (g : FastAPI.Globals)
    (l : list (Clock Q * FastAPI.TranslateRequest)) :
  forall w : World (FastAPI.Stats Q),
    all_succeed g (singles l) w = true ->
    let w' := FastAPI.serve g (singles l) w in
    (FastAPI.average_time_ms (stats w') * inject_Z (FastAPI.total_requests (stats w'))
     == FastAPI.average_time_ms (stats w) * inject_Z (FastAPI.total_requests (stats w))
        + Qsum (latencies l))%Q.
Proof.
  induction l as [|[clock request] l IH]; intros w A w'; subst w'.
  - cbn. ring.
  - cbn [singles map all_succeed fst snd] in A.
    apply andb_true_iff in A as [S A].
    destruct (translate_succeeds g clock request w S) as [N E].
    change (FastAPI.serve g (singles ((clock, request) :: l)) w)
      with (FastAPI.serve g (singles l)
              (FastAPI.handle g (FastAPI.PostTranslate clock request) w)).
    rewrite (IH _ A), E.
    change (Qsum (latencies ((clock, request) :: l)))
      with (FastAPI.elapsed_ms clock + Qsum (latencies l))%Q.
    unfold stats_after_translation.
    cbn [FastAPI.average_time_ms FastAPI.total_requests FastAPI.set_average
         FastAPI.add_characters FastAPI.add_requests fdiv fadd fmul of_int Q_num].
    rewrite (mean_step _ _ _ N). ring.
Qed.

(** **** The incremental formula, in any arithmetic *)

Lemma singles_app {F : Type} (a b : list (Clock F * FastAPI.TranslateRequest)) :
  singles (a ++ b) = singles a ++ singles b.
Proof. apply map_app. Qed.

Lemma incremental_formula {F : Type} `{PyNum F} (g : FastAPI.Globals)
    (l pre post : list (Clock F * FastAPI.TranslateRequest)) clock request :
  all_succeed g (singles l) FastAPI.reset_world = true ->
  l = pre ++ (clock, request) :: post ->
  let before := stats (FastAPI.serve g (singles pre) FastAPI.reset_world) in
  let after :=
    stats (FastAPI.serve g (singles (pre ++ [(clock, request)]))
             FastAPI.reset_world) in
  let n := FastAPI.total_requests after in
  n = len pre + 1 /\
  FastAPI.average_time_ms after =
    fdiv (fadd (fmul (FastAPI.average_time_ms before) (of_int (n - 1)))
               (FastAPI.elapsed_ms clock))
         (of_int n).
Proof.
  intros A -> before after n. subst before after n.
  rewrite singles_app in A. apply all_succeed_app in A as [Apre A].
  cbn [singles map all_succeed fst snd] in A.
  apply andb_true_iff in A as [S _].
  destruct (translate_succeeds g clock request _ S) as [_ E].
  pose proof (total_requests_after_successes g pre _ Apre) as R.
  cbn [FastAPI.reset_world FastAPI.initial_stats stats FastAPI.total_requests] in R.
  rewrite singles_app, serve_app.
  change (FastAPI.serve g (singles [(clock, request)])
            (FastAPI.serve g (singles pre) FastAPI.reset_world))
    with (FastAPI.handle g (FastAPI.PostTranslate clock request)
            (FastAPI.serve g (singles pre) FastAPI.reset_world)).
  rewrite E. unfold stats_after_translation.
  cbn [FastAPI.average_time_ms FastAPI.total_requests FastAPI.set_average
       FastAPI.add_characters FastAPI.add_requests].
  rewrite R. split; [lia|reflexivity].
Qed.

(** **** In binary64 arithmetic *)

(** In binary64 the running mean is a rounded value.  After eight
    successful requests with latencies 1000, 6000, 4000, 7000, 1000, 2000,
    9000 and 2000 ms, whose arithmetic mean is 4000 ms exactly, the statistic
    is the binary64 number just below 4000: equal to the mean up to
    rounding, not exactly. *)
Lemma float_running_mean_is_not_the_mean :
  let s := stats (FastAPI.serve sample_globals (singles eight_requests)
                    fastapi_world) in
  all_succeed sample_globals (singles eight_requests) fastapi_world = true /\
  latencies eight_requests
    = [1000; 6000; 4000; 7000; 1000; 2000; 9000; 2000]%float /\
  FastAPI.total_requests s = 8 /\
  PrimFloat.ltb (FastAPI.average_time_ms s) 4000 = true /\
  exists a m,
    exact (FastAPI.average_time_ms s) = Some a /\
    exact_mean (latencies eight_requests) = Some m /\
    (m == 4000 # 1)%Q /\
    ~ (a == m)%Q.
Proof.
  split; [vm_compute; reflexivity|].
  split; [vm_compute; reflexivity|].
  split; [vm_compute; reflexivity|].
  split; [vm_compute; reflexivity|].
  eexists _, _. split; [vm_compute; reflexivity|].
  split; [vm_compute; reflexivity|].
  split; vm_compute; [reflexivity|discriminate].
Qed.

(** In exact arithmetic (over the rationals) the incremental formula gives
    the arithmetic mean: over a sequence of successful single-translation
    requests served from reset statistics, the request count is the number
    of requests and the running mean is the mean of the observed
    latencies. *)
Theorem running_mean_is_arithmetic_mean :
  forall (g : FastAPI.Globals) (l : list (Clock Q * FastAPI.TranslateRequest)),
    all_succeed g (singles l) FastAPI.reset_world = true ->
    let served := fun k => stats (FastAPI.serve g (singles k) FastAPI.reset_world) in
    (forall pre clock request post,
        l = pre ++ (clock, request) :: post ->
        let n := FastAPI.total_requests (served (pre ++ [(clock, request)])) in
        n = len pre + 1 /\
        FastAPI.average_time_ms (served (pre ++ [(clock, request)])) =
          ((FastAPI.average_time_ms (served pre) * inject_Z (n - 1)
            + FastAPI.elapsed_ms clock) / inject_Z n)%Q) /\
    FastAPI.total_requests (served l) = len l /\
    (l <> [] ->
     (FastAPI.average_time_ms (served l)
      == Qsum (latencies l) / inject_Z (len l))%Q).
Proof.
  intros g l A served. subst served. cbv beta. split; [|split].
  - intros pre clock request post E.
    exact (incremental_formula g l pre post clock request A E).
  - rewrite (total_requests_after_successes g l _ A). reflexivity.
  - intros NE.
    pose proof (mean_invariant g l _ A) as M. cbv zeta in M.
    rewrite (total_requests_after_successes g l _ A) in M.
    cbn [FastAPI.reset_world FastAPI.initial_stats stats
         FastAPI.total_requests FastAPI.average_time_ms of_int Q_num] in M.
    assert (K : ~ (inject_Z (0 + len l) == 0)%Q).
    { apply inject_Z_nonzero. unfold len. destruct l; [congruence|].
      cbn [List.length]. lia. }
    change (0 + len l) with (len l) in *.
    rewrite <- (Qmult_1_r (FastAPI.average_time_ms _)).
    rewrite <- (Qmult_inv_r _ K), Qmult_assoc, M.
    unfold Qdiv. ring.
Qed.

Lemma running_mean_is_arithmetic_mean_witness :
  let l := [(Q_clock 0 1, request_of "a" "th" "en");
            (Q_clock 0 1, request_of "b" "th" "en");
            (Q_clock 0 2, request_of "c" "th" "en")] in
  let s := stats (FastAPI.serve sample_globals (singles l) FastAPI.reset_world) in
  FastAPI.total_requests s = 3 /\
  (FastAPI.average_time_ms s == 4000 # 3)%Q.
Proof.
  intros l s.
  destruct (running_mean_is_arithmetic_mean sample_globals l eq_refl)
    as (_ & R & M).
  split; [exact R|].
  subst s. rewrite M by discriminate. vm_compute. reflexivity.
Defined.

(** * Further properties of the services *)

(** ** The FastAPI service: what every request does to the state *)

Lemma len_nonneg {A : Type} (l : list A) : 0 <= len l.
Proof. unfold len. lia. Qed.

Lemma total_len_nonneg (ts : list pystr) : 0 <= total_len ts.
Proof.
  induction ts as [|t ts IH]; cbn [total_len fold_right]; [lia|].
  fold (total_len ts). pose proof (len_nonneg t). lia.
Qed.

(** The paths of [translate], one goal for each. *)
Ltac translate_paths g request w :=
  let translation := fresh "translation" in
  let L := fresh "L" in
  let B := fresh "B" in
  let T := fresh "T" in
  let Z := fresh "Z" in
  destruct (FastAPI.th_en_translation g) as [translation|] eqn:L;
  [ destruct (blank (FastAPI.text request)) eqn:B;
    [ rewrite (FastAPIFacts.translate_blank g translation) by assumption
    | rewrite (FastAPIFacts.translate_nonblank g translation) by assumption;
      cbv zeta;
      destruct (translation (FastAPI.text request)) eqn:T;
      [ destruct (FastAPI.total_requests (stats w) + 1 =? 0) eqn:Z | ] ]
  | rewrite FastAPIFacts.translate_unloaded by assumption ].

(** The paths of [translate_batch], one goal for each. *)
Ltac translate_batch_paths g request w :=
  let translation := fresh "translation" in
  let L := fresh "L" in
  let G := fresh "G" in
  let P := fresh "P" in
  let Z := fresh "Z" in
  destruct (FastAPI.th_en_translation g) as [translation|] eqn:L;
  [ destruct (Z_lt_le_dec 100 (len (FastAPI.texts request))) as [G|G];
    [ rewrite (FastAPIFacts.translate_batch_too_large g translation)
        by assumption
    | destruct (forallb (passes translation) (FastAPI.texts request)) eqn:P;
      [ rewrite (FastAPIFacts.translate_batch_passes g translation)
          by assumption;
        cbv zeta;
        destruct (len (FastAPI.texts request) =? 0) eqn:Z
      | let pre := fresh "pre" in
        let t := fresh "t" in
        let post := fresh "post" in
        let m := fresh "m" in
        let E := fresh "E" in
        let Ppre := fresh "Ppre" in
        let Bt := fresh "Bt" in
        let Tt := fresh "Tt" in
        destruct (FastAPIFacts.first_failure translation _ P)
          as (pre & t & post & m & E & Ppre & Bt & Tt);
        rewrite (FastAPIFacts.translate_batch_raises g translation _ request w
                   pre t post m) by assumption ] ]
  | rewrite FastAPIFacts.translate_batch_unloaded by assumption ].

Section FastAPIState.
Context {F : Type} `{PyNum F}.

Implicit Types (g : FastAPI.Globals) (w : World (FastAPI.Stats F)).

Lemma characters_of_nonneg (ts : list pystr) : 0 <= characters_of ts.
Proof. unfold characters_of. apply (total_len_nonneg (filter nonblank ts)). Qed.

(** One request: no counter goes down and the log is only extended. *)
Lemma handle_grows g r w :
  FastAPI.total_requests (stats w)
    <= FastAPI.total_requests (stats (FastAPI.handle g r w)) /\
  FastAPI.total_characters (stats w)
    <= FastAPI.total_characters (stats (FastAPI.handle g r w)) /\
  FastAPI.errors (stats w) <= FastAPI.errors (stats (FastAPI.handle g r w)) /\
  exists new, calls (FastAPI.handle g r w) = calls w ++ new.
Proof.
  destruct r as [clock request|clock request]; cbn [FastAPI.handle].
  - pose proof (len_nonneg (FastAPI.text request)).
    translate_paths g request w; cbn;
      repeat split; try lia; try (eexists; reflexivity);
      exists []; rewrite app_nil_r; reflexivity.
  - pose proof (len_nonneg (FastAPI.texts request)).
    pose proof (characters_of_nonneg (FastAPI.texts request)).
    translate_batch_paths g request w; cbn;
      try pose proof (characters_of_nonneg pre);
      repeat split; try lia; try (eexists; reflexivity);
      exists []; rewrite app_nil_r; reflexivity.
Qed.

End FastAPIState.

(** X1: over any sequence of translation requests served by the FastAPI
    service, from any state, the request count, the character total and the
    error count never go down, and the log of engine calls is only
    extended. *)
Theorem counters_never_decrease :
  forall {F : Type} `{PyNum F} g (rs : list (FastAPI.Request F))
         (w : World (FastAPI.Stats F)),
    let w' := FastAPI.serve g rs w in
    FastAPI.total_requests (stats w) <= FastAPI.total_requests (stats w') /\
    FastAPI.total_characters (stats w) <= FastAPI.total_characters (stats w') /\
    FastAPI.errors (stats w) <= FastAPI.errors (stats w') /\
    exists new, calls w' = calls w ++ new.
Proof.
  intros F num g rs. unfold FastAPI.serve.
  induction rs as [|r rs IH]; intros w; cbn [fold_left].
  - repeat split; try lia. exists []. rewrite app_nil_r. reflexivity.
  - destruct (handle_grows g r w) as (R & C & E & new & N).
    destruct (IH (FastAPI.handle g r w)) as (R' & C' & E' & new' & N').
    repeat split; try lia.
    exists (new ++ new'). rewrite N', N, app_assoc. reflexivity.
Qed.

Section FastAPIAccounting.
Context {F : Type} `{PyNum F}.

Implicit Types (g : FastAPI.Globals) (w : World (FastAPI.Stats F)).

(** What one request does to the error counter and, on a state whose
    request count is not negative, to the request count. *)
Lemma handle_accounts g r w :
  (verdict_on g r w = Rejected -> FastAPI.handle g r w = w) /\
  FastAPI.errors (stats (FastAPI.handle g r w))
    = FastAPI.errors (stats w)
      + (if same_verdict (verdict_on g r w) Failed then weight r else 0) /\
  (0 <= FastAPI.total_requests (stats w) ->
   FastAPI.total_requests (stats (FastAPI.handle g r w))
     = FastAPI.total_requests (stats w)
       + (if same_verdict (verdict_on g r w) Succeeded then weight r else 0)).
Proof.
  destruct r as [clock request|clock request];
    cbn [FastAPI.handle verdict_on weight].
  - translate_paths g request w; cbn;
      repeat split; intros; try discriminate; try reflexivity; try lia.
  - translate_batch_paths g request w; cbn;
      repeat split; intros; try discriminate; try reflexivity; try lia.
Qed.

Lemma weight_nonneg (r : FastAPI.Request F) : 0 <= weight r.
Proof. destruct r; cbn; [lia|apply len_nonneg]. Qed.

Lemma serve_cons g r rs w :
  FastAPI.serve g (r :: rs) w = FastAPI.serve g rs (FastAPI.handle g r w).
Proof. reflexivity. Qed.

End FastAPIAccounting.

(** X2: a request that the FastAPI service rejects (503 model not loaded,
    400 blank text, 400 batch too large) leaves the statistics and the log
    of engine calls exactly as they were. *)
Theorem rejected_request_changes_nothing :
  forall {F : Type} `{PyNum F} g (r : FastAPI.Request F)
         (w : World (FastAPI.Stats F)),
    verdict_on g r w = Rejected ->
    FastAPI.handle g r w = w.
Proof.
  intros F num g r w. apply (proj1 (handle_accounts g r w)).
Qed.

Lemma rejected_request_changes_nothing_witness :
  FastAPI.handle sample_globals
    (FastAPI.PostTranslate (float_clock 100 100.25) (request_of " " "th" "en"))
    fastapi_world = fastapi_world.
Proof.
  apply (rejected_request_changes_nothing (F := float)). reflexivity.
Defined.

(** X3: the error counter of the FastAPI service counts exactly the
    requests answered with 500, a single request for one and a batch for
    its size; rejected and successful requests add nothing. *)
Theorem errors_count_failed_requests :
  forall {F : Type} `{PyNum F} g (rs : list (FastAPI.Request F))
         (w : World (FastAPI.Stats F)),
    FastAPI.errors (stats (FastAPI.serve g rs w))
      = FastAPI.errors (stats w) + weight_of Failed g rs w.
Proof.
  intros F num g rs.
  induction rs as [|r rs IH]; intros w.
  - cbn. lia.
  - rewrite serve_cons, IH. cbn [weight_of].
    destruct (handle_accounts g r w) as (_ & E & _). rewrite E. lia.
Qed.

(** X4: from a state whose request count is not negative, the request
    count of the FastAPI service counts exactly the requests answered with
    a success, a single request for one and a batch for its size (blank
    entries included); rejected and failed requests add nothing. *)
Theorem total_requests_count_succeeded_requests :
  forall {F : Type} `{PyNum F} g (rs : list (FastAPI.Request F))
         (w : World (FastAPI.Stats F)),
    0 <= FastAPI.total_requests (stats w) ->
    FastAPI.total_requests (stats (FastAPI.serve g rs w))
      = FastAPI.total_requests (stats w) + weight_of Succeeded g rs w.
Proof.
  intros F num g rs.
  induction rs as [|r rs IH]; intros w N.
  - cbn. lia.
  - destruct (handle_accounts g r w) as (_ & _ & R). specialize (R N).
    pose proof (weight_nonneg r) as W.
    rewrite serve_cons, IH by (rewrite R; destruct (same_verdict _ _); lia).
    cbn [weight_of]. rewrite R. lia.
Qed.

Lemma total_requests_count_succeeded_requests_witness :
  FastAPI.total_requests
    (stats (FastAPI.serve sample_globals mixed_requests fastapi_world))
  = 0 + weight_of Succeeded sample_globals mixed_requests fastapi_world /\
  weight_of Succeeded sample_globals mixed_requests fastapi_world = 4 /\
  weight_of Failed sample_globals mixed_requests fastapi_world = 3.
Proof.
  split; [|split; reflexivity].
  apply (total_requests_count_succeeded_requests (F := float) sample_globals
           mixed_requests fastapi_world).
  cbn. lia.
Defined.

Section FastAPIReachable.
Context {F : Type} `{PyNum F}.

Implicit Types (g : FastAPI.Globals) (w : World (FastAPI.Stats F)).

Lemma perform_keeps_nonnegative g (a : FastAPI.Action F) w :
  nonnegative (stats w) -> nonnegative (stats (FastAPI.perform g a w)).
Proof.
  unfold nonnegative. intros (R & C & E).
  destruct a as [r|]; cbn [FastAPI.perform].
  - destruct (handle_grows g r w) as (R' & C' & E' & _). lia.
  - cbn. lia.
Qed.

Lemma run_keeps_nonnegative g (actions : list (FastAPI.Action F)) : forall w,
  nonnegative (stats w) -> nonnegative (stats (FastAPI.run g actions w)).
Proof.
  unfold FastAPI.run.
  induction actions as [|a actions IH]; intros w N; [exact N|].
  cbn [fold_left]. apply IH, perform_keeps_nonnegative, N.
Qed.

Lemma reset_world_nonnegative :
  nonnegative (stats (FastAPI.reset_world (F := F))).
Proof. unfold nonnegative. cbn. lia. Qed.

End FastAPIReachable.

(** X5: in every state the FastAPI service can reach from reset statistics
    by translation, batch and reset requests, a single request whose text is
    not blank and which the engine translates is answered with a success:
    the division by the request count in the update of the running mean
    cannot raise.  The response echoes the text, gives its length as
    [characters], and the counters move by one request and the length of the
    text. *)
Theorem translation_succeeds_in_reachable_states :
  forall {F : Type} `{PyNum F} g translation (actions : list (FastAPI.Action F))
         clock request translated_text,
    FastAPI.th_en_translation g = Some translation ->
    blank (FastAPI.text request) = false ->
    translation (FastAPI.text request) = Returns translated_text ->
    let w := FastAPI.run g actions FastAPI.reset_world in
    FastAPI.translate g clock request w =
      (Return {| FastAPI.original := FastAPI.text request;
                 FastAPI.translated := translated_text;
                 FastAPI.response_from_lang := FastAPI.from_lang request;
                 FastAPI.response_to_lang := FastAPI.to_lang request;
                 FastAPI.success := true;
                 FastAPI.characters := len (FastAPI.text request);
                 FastAPI.time_ms := Round (FastAPI.elapsed_ms clock) 2 |},
       {| stats := stats_after_translation clock (FastAPI.text request) (stats w);
          calls := calls w
                   ++ [(FastAPI.text request, Returns translated_text)] |}).
Proof.
  intros F num g translation actions clock request out L B T w.
  destruct (run_keeps_nonnegative g actions _ reset_world_nonnegative)
    as (R & _).
  fold w in R.
  rewrite (FastAPIFacts.translate_nonblank g translation) by assumption.
  cbv zeta. rewrite T.
  replace (FastAPI.total_requests (stats w) + 1 =? 0) with false
    by (symmetry; apply Z.eqb_neq; lia).
  reflexivity.
Qed.

Lemma translation_succeeds_in_reachable_states_witness :
  let w := FastAPI.run sample_globals
             [FastAPI.Post (FastAPI.PostTranslate (float_clock 0 1)
                              (request_of "boom" "th" "en"));
              FastAPI.PostResetStats] FastAPI.reset_world in
  is_Return (fst (FastAPI.translate sample_globals (float_clock 0 1)
                    (request_of "a" "th" "en") w)) = true.
Proof.
  intros w. subst w.
  rewrite (translation_succeeds_in_reachable_states (F := float) sample_globals
             sample_translation _ (float_clock 0 1) (request_of "a" "th" "en")
             (lit "EN:a") eq_refl eq_refl eq_refl).
  reflexivity.
Defined.

Section FastAPIComposition.
Context {F : Type} `{PyNum F}.

Implicit Types (g : FastAPI.Globals) (w : World (FastAPI.Stats F)).

(** The statistics after a request depend on the statistics before it, not
    on the log. *)
Lemma handle_stats_only g r w w' :
  stats w = stats w' ->
  stats (FastAPI.handle g r w) = stats (FastAPI.handle g r w').
Proof.
  intros E. destruct r as [clock request|clock request]; cbn [FastAPI.handle].
  - destruct (FastAPI.th_en_translation g) as [translation|] eqn:L.
    + destruct (blank (FastAPI.text request)) eqn:B.
      * rewrite !(FastAPIFacts.translate_blank g translation) by assumption.
        exact E.
      * rewrite !(FastAPIFacts.translate_nonblank g translation) by assumption.
        cbv zeta. rewrite <- E.
        destruct (translation (FastAPI.text request));
          [destruct (FastAPI.total_requests (stats w) + 1 =? 0)|];
          reflexivity.
    + rewrite !FastAPIFacts.translate_unloaded by assumption. exact E.
  - destruct (FastAPI.th_en_translation g) as [translation|] eqn:L.
    + destruct (Z_lt_le_dec 100 (len (FastAPI.texts request))) as [G|G].
      * rewrite !(FastAPIFacts.translate_batch_too_large g translation)
          by assumption.
        exact E.
      * destruct (forallb (passes translation) (FastAPI.texts request)) eqn:P.
        -- rewrite !(FastAPIFacts.translate_batch_passes g translation)
             by assumption.
           cbv zeta. rewrite <- E.
           destruct (len (FastAPI.texts request) =? 0); reflexivity.
        -- destruct (FastAPIFacts.first_failure translation _ P)
             as (pre & t & post & m & X & Ppre & Bt & Tt).
           rewrite !(FastAPIFacts.translate_batch_raises g translation _
                       request _ pre t post m) by assumption.
           cbn [snd stats]. rewrite <- E. reflexivity.
    + rewrite !FastAPIFacts.translate_batch_unloaded by assumption. exact E.
Qed.

Lemma run_stats_only g (actions : list (FastAPI.Action F)) : forall w w',
  stats w = stats w' ->
  stats (FastAPI.run g actions w) = stats (FastAPI.run g actions w').
Proof.
  unfold FastAPI.run.
  induction actions as [|a actions IH]; intros w w' E; [exact E|].
  cbn [fold_left]. apply IH. destruct a as [r|]; cbn [FastAPI.perform].
  - apply handle_stats_only, E.
  - reflexivity.
Qed.

Lemma run_app g (a b : list (FastAPI.Action F)) w :
  FastAPI.run g (a ++ b) w = FastAPI.run g b (FastAPI.run g a w).
Proof. unfold FastAPI.run. apply fold_left_app. Qed.

End FastAPIComposition.

(** X6: [POST /reset-stats] makes the FastAPI service forget its history:
    the statistics after any sequence of requests that contains a reset are
    those of the requests after the last reset, served from zeroed
    statistics. *)
Theorem reset_forgets_history :
  forall {F : Type} `{PyNum F} g (before after : list (FastAPI.Action F))
         (w : World (FastAPI.Stats F)),
    stats (FastAPI.run g (before ++ FastAPI.PostResetStats :: after) w)
    = stats (FastAPI.run g after FastAPI.reset_world).
Proof.
  intros F num g before after w.
  rewrite run_app.
  change (FastAPI.run g (FastAPI.PostResetStats :: after) (FastAPI.run g before w))
    with (FastAPI.run g after
            (FastAPI.perform g FastAPI.PostResetStats (FastAPI.run g before w))).
  apply run_stats_only. reflexivity.
Qed.

(** X7: a batch that succeeds adds its size to the request count and
    leaves the running mean untouched, so the next successful single
    request computes its mean over a count that includes the batch: from
    count [n] and mean [a], a batch of [k] texts followed by a translation
    that took [e] ms leaves the mean [(a * (n + k) + e) / (n + k + 1)]. *)
Theorem batch_counts_in_the_running_mean :
  forall {F : Type} `{PyNum F} g clock_b batch clock request
         (w : World (FastAPI.Stats F)),
    0 <= FastAPI.total_requests (stats w) ->
    let w1 := FastAPI.handle g (FastAPI.PostTranslateBatch clock_b batch) w in
    let w2 := FastAPI.handle g (FastAPI.PostTranslate clock request) w1 in
    verdict_on g (FastAPI.PostTranslateBatch clock_b batch) w = Succeeded ->
    verdict_on g (FastAPI.PostTranslate clock request) w1 = Succeeded ->
    let n := FastAPI.total_requests (stats w) in
    let k := len (FastAPI.texts batch) in
    FastAPI.average_time_ms (stats w1) = FastAPI.average_time_ms (stats w) /\
    FastAPI.total_requests (stats w2) = n + k + 1 /\
    FastAPI.average_time_ms (stats w2) =
      fdiv (fadd (fmul (FastAPI.average_time_ms (stats w)) (of_int (n + k)))
                 (FastAPI.elapsed_ms clock))
           (of_int (n + k + 1)).
Proof.
  intros F num g clock_b batch clock request w N w1 w2 Vb Vs n k.
  assert (A1 : FastAPI.average_time_ms (stats w1)
               = FastAPI.average_time_ms (stats w)
               /\ FastAPI.total_requests (stats w1) = n + k).
  { subst w1 n k. revert Vb. cbn [FastAPI.handle verdict_on].
    translate_batch_paths g batch w; cbn; intros V; try discriminate.
    split; reflexivity. }
  destruct A1 as [A1 R1]. split; [exact A1|].
  clearbody w1. subst w2. revert Vs. cbn [FastAPI.handle verdict_on].
  translate_paths g request w1; cbn; intros V; try discriminate.
  rewrite A1, R1.
  replace (n + k + 1 - 1) with (n + k) by lia.
  split; reflexivity.
Qed.

Lemma batch_counts_in_the_running_mean_witness :
  let w1 := FastAPI.handle sample_globals
              (FastAPI.PostTranslateBatch (Q_clock 0 1)
                 (batch_of ["a"; EmptyString; "b"]%string))
              FastAPI.reset_world in
  let w2 := FastAPI.handle sample_globals
              (FastAPI.PostTranslate (Q_clock 0 1) (request_of "c" "th" "en"))
              w1 in
  FastAPI.elapsed_ms (Q_clock 0 1) = 1000%Q /\
  FastAPI.total_requests (stats w2) = 4 /\
  (FastAPI.average_time_ms (stats w2) == 250)%Q.
Proof.
  intros w1 w2.
  destruct (batch_counts_in_the_running_mean (F := Q) sample_globals
              (Q_clock 0 1) (batch_of ["a"; EmptyString; "b"]%string)
              (Q_clock 0 1) (request_of "c" "th" "en") FastAPI.reset_world)
    as (_ & R & A).
  - cbn. lia.
  - reflexivity.
  - reflexivity.
  - split; [vm_compute; reflexivity|]. split; [exact R|].
    subst w2 w1. rewrite A. vm_compute. reflexivity.
Defined.

(** ** The FastAPI service: startup and health *)

Lemma find_language_in languages c lang :
  find_language languages c = Some lang ->
  In c (map code languages) /\ code lang = c.
Proof.
  unfold find_language. intros E. apply find_some in E as [I E].
  apply eqb_eq in E. split; [|exact E].
  rewrite <- E. apply in_map. exact I.
Qed.

(** X8: a FastAPI service whose [startup_event] completed reports itself
    healthy with the model loaded, lists the codes of the installed
    languages, [th] and [en] among them, shows the current statistics on
    [/health] and [/stats] without changing them, and never answers a
    translation request with 503. *)
Theorem started_service_is_healthy :
  forall {F : Type} `{PyNum F} languages g,
    FastAPI.startup_event languages = Some g ->
    In (lit "th") (map code languages) /\
    In (lit "en") (map code languages) /\
    (forall w : World (FastAPI.Stats F),
        FastAPI.health_check g w =
          (Return {| FastAPI.status := lit "healthy";
                     FastAPI.model_loaded := true;
                     FastAPI.languages := map code languages;
                     FastAPI.health_stats := stats w |}, w) /\
        FastAPI.get_stats g w =
          (Return {| FastAPI.stats_stats := stats w;
                     FastAPI.model_info_source := lit "th";
                     FastAPI.model_info_target := lit "en";
                     FastAPI.model_info_loaded := true |}, w)) /\
    (forall clock request (w : World (FastAPI.Stats F)) detail,
        fst (FastAPI.translate g clock request w)
          <> Raise (mkHTTPException 503 detail)) /\
    (forall clock request (w : World (FastAPI.Stats F)) detail,
        fst (FastAPI.translate_batch g clock request w)
          <> Raise (mkHTTPException 503 detail)).
Proof.
  intros F num languages g S.
  destruct (startup_event_loads_th_en languages g S)
    as (th_lang & en_lang & translation & Th & En & G & L).
  apply find_language_in in Th as [Th _]. apply find_language_in in En as [En _].
  split; [exact Th|]. split; [exact En|].
  assert (I : FastAPI.installed_languages g = Some languages).
  { revert S. unfold FastAPI.startup_event.
    repeat match goal with
           | |- context [match ?x with _ => _ end] => destruct x
           end; try discriminate.
    intros X. injection X as <-. reflexivity. }
  split; [|split].
  - intros w. unfold FastAPI.health_check, FastAPI.get_stats, bind, get, ret.
    rewrite L, I. split; reflexivity.
  - intros clock request w detail.
    translate_paths g request w; cbn; congruence.
  - intros clock request w detail.
    translate_batch_paths g request w; cbn; congruence.
Qed.

Lemma started_service_is_healthy_witness :
  In (lit "th") (map code sample_languages) /\
  In (lit "en") (map code sample_languages) /\
  (forall w : World (FastAPI.Stats float),
      FastAPI.health_check sample_globals w =
        (Return {| FastAPI.status := lit "healthy";
                   FastAPI.model_loaded := true;
                   FastAPI.languages := map code sample_languages;
                   FastAPI.health_stats := stats w |}, w) /\
      FastAPI.get_stats sample_globals w =
        (Return {| FastAPI.stats_stats := stats w;
                   FastAPI.model_info_source := lit "th";
                   FastAPI.model_info_target := lit "en";
                   FastAPI.model_info_loaded := true |}, w)) /\
  (forall clock request (w : World (FastAPI.Stats float)) detail,
      fst (FastAPI.translate sample_globals clock request w)
        <> Raise (mkHTTPException 503 detail)) /\
  (forall clock request (w : World (FastAPI.Stats float)) detail,
      fst (FastAPI.translate_batch sample_globals clock request w)
        <> Raise (mkHTTPException 503 detail)).
Proof.
  exact (started_service_is_healthy (F := float) sample_languages
           sample_globals eq_refl).
Defined.

(** X9: [startup_event] raises, so the FastAPI application does not start,
    whenever [th] or [en] is missing from the installed languages. *)
Theorem startup_needs_both_languages :
  forall languages,
    ~ In (lit "th") (map code languages) \/ ~ In (lit "en") (map code languages) ->
    FastAPI.startup_event languages = None.
Proof.
  intros languages M. unfold FastAPI.startup_event.
  destruct (find_language languages (lit "th")) as [th_lang|] eqn:Th;
    [|reflexivity].
  destruct (find_language languages (lit "en")) as [en_lang|] eqn:En;
    [|reflexivity].
  apply find_language_in in Th as [Th _]. apply find_language_in in En as [En _].
  tauto.
Qed.

Lemma startup_needs_both_languages_witness :
  FastAPI.startup_event [th_language] = None.
Proof.
  apply startup_needs_both_languages.
  right. simpl. intros [E|[]]. discriminate.
Defined.

(** ** The FastAPI service: what a response tells *)

Lemma nonblank_len (t : pystr) : blank t = false -> 1 <= len t.
Proof. destruct t; [discriminate|]. unfold len. cbn [List.length]. lia. Qed.

Lemma len_map {A B : Type} (f : A -> B) (l : list A) : len (map f l) = len l.
Proof. unfold len. rewrite length_map. reflexivity. Qed.

Lemma len_filter_le {A : Type} (f : A -> bool) (l : list A) :
  len (filter f l) <= len l.
Proof.
  unfold len. induction l as [|a l IH]; cbn [filter List.length]; [lia|].
  destruct (f a); cbn [List.length]; lia.
Qed.

Lemma len_app {A : Type} (a b : list A) : len (a ++ b) = len a + len b.
Proof. unfold len. rewrite length_app. lia. Qed.

Lemma calls_for_within (translation : Translation) (ts : list pystr) :
  Forall (call_within translation ts) (calls_for translation ts).
Proof.
  unfold calls_for. apply Forall_forall. intros c I.
  apply in_map_iff in I as (t & <- & I). apply filter_In in I as [I N].
  unfold call_within, nonblank in *. cbn [fst snd].
  destruct (blank t); [discriminate|auto].
Qed.

Lemma call_within_incl (translation : Translation) (ts ts' : list pystr) c :
  incl ts ts' -> call_within translation ts c -> call_within translation ts' c.
Proof. unfold call_within. intros I (X & B & S). auto. Qed.

(** X10: whenever the FastAPI [translate] handler answers with a success,
    the model was loaded, the text was not blank and the engine returned
    the translation that the response carries; the response echoes the text
    and gives its length, at least 1, as [characters]; the request count
    went up by one, the character total by that length, the error count
    stayed, and exactly one engine call was logged. *)
Theorem translate_success_means :
  forall {F : Type} `{PyNum F} g clock request (w w' : World (FastAPI.Stats F))
         response,
    FastAPI.translate g clock request w = (Return response, w') ->
    (exists translation,
        FastAPI.th_en_translation g = Some translation /\
        translation (FastAPI.text request)
          = Returns (FastAPI.translated response)) /\
    blank (FastAPI.text request) = false /\
    FastAPI.original response = FastAPI.text request /\
    FastAPI.success response = true /\
    FastAPI.characters response = len (FastAPI.text request) /\
    1 <= FastAPI.characters response /\
    FastAPI.time_ms response = Round (FastAPI.elapsed_ms clock) 2 /\
    FastAPI.total_requests (stats w') = FastAPI.total_requests (stats w) + 1 /\
    FastAPI.total_characters (stats w')
      = FastAPI.total_characters (stats w) + len (FastAPI.text request) /\
    FastAPI.errors (stats w') = FastAPI.errors (stats w) /\
    calls w' = calls w ++ [(FastAPI.text request,
                            Returns (FastAPI.translated response))].
Proof.
  intros F num g clock request w w' response.
  translate_paths g request w; intros E; try discriminate.
  injection E as <- <-. cbn.
  pose proof (nonblank_len _ B).
  repeat split; try reflexivity; try assumption.
  exists translation. auto.
Qed.

Lemma translate_success_means_witness :
  exists response w',
    FastAPI.translate sample_globals (float_clock 0 1)
      (request_of "ab" "th" "en") fastapi_world = (Return response, w') /\
    FastAPI.translated response = lit "EN:ab" /\
    FastAPI.characters response = 2 /\
    FastAPI.total_characters (stats w') = 2.
Proof.
  eexists _, _. split; [reflexivity|].
  destruct (translate_success_means (F := float) sample_globals (float_clock 0 1)
              (request_of "ab" "th" "en") fastapi_world _ _ eq_refl)
    as (_ & _ & _ & _ & C & _ & _ & _ & T & _).
  split; [reflexivity|]. split; [exact C|exact T].
Defined.

(** X11: whenever the FastAPI [translate_batch] handler answers with a
    success, the batch had between 1 and 100 texts; [count] is that number,
    [originals] and the translated list have that length, and every entry
    that is not blank was translated by the engine; the request count went
    up by [count], while the running mean and the error count stayed. *)
Theorem translate_batch_success_means :
  forall {F : Type} `{PyNum F} g clock request (w w' : World (FastAPI.Stats F))
         response,
    FastAPI.translate_batch g clock request w = (Return response, w') ->
    1 <= FastAPI.count response <= 100 /\
    FastAPI.count response = len (FastAPI.texts request) /\
    FastAPI.originals response = FastAPI.texts request /\
    len (FastAPI.batch_translated response) = FastAPI.count response /\
    FastAPI.batch_success response = true /\
    (exists translation,
        FastAPI.th_en_translation g = Some translation /\
        Forall2 (fun t out =>
                   if blank t then out = [] else translation t = Returns out)
          (FastAPI.texts request) (FastAPI.batch_translated response)) /\
    FastAPI.total_requests (stats w')
      = FastAPI.total_requests (stats w) + FastAPI.count response /\
    FastAPI.average_time_ms (stats w') = FastAPI.average_time_ms (stats w) /\
    FastAPI.errors (stats w') = FastAPI.errors (stats w).
Proof.
  intros F num g clock request w w' response.
  translate_batch_paths g request w; intros X; try discriminate.
  injection X as <- <-. cbn.
  apply Z.eqb_neq in Z. pose proof (len_nonneg (FastAPI.texts request)).
  rewrite len_map.
  repeat split; try reflexivity; try lia.
  exists translation. split; [reflexivity|].
  clear - P. induction (FastAPI.texts request) as [|t ts IH]; cbn [map].
  - constructor.
  - cbn [forallb] in P. apply andb_true_iff in P as [Pt P].
    constructor; [|apply IH; exact P].
    unfold batch_entry, passes, successful in *. cbn [snd] in Pt.
    destruct (blank t); [reflexivity|].
    destruct (translation t); [reflexivity|discriminate].
Qed.

Lemma translate_batch_success_means_witness :
  exists response w',
    FastAPI.translate_batch sample_globals (float_clock 0 1)
      (batch_of ["a"; EmptyString; "b"]%string) fastapi_world
    = (Return response, w') /\
    FastAPI.count response = 3 /\
    len (FastAPI.batch_translated response) = 3 /\
    FastAPI.total_requests (stats w') = 0 + 3.
Proof.
  eexists _, _. split; [reflexivity|].
  destruct (translate_batch_success_means (F := float) sample_globals
              (float_clock 0 1) (batch_of ["a"; EmptyString; "b"]%string)
              fastapi_world _ _ eq_refl)
    as (_ & C & _ & L & _ & _ & R & _).
  split; [exact C|]. split; [exact L|exact R].
Defined.

(** X12: serving a request, the FastAPI service calls the engine only on
    texts of that request that are not blank, with the loaded model, and at
    most once for a single request and once per entry for a batch. *)
Theorem engine_calls_stay_within_the_request :
  forall {F : Type} `{PyNum F} g (r : FastAPI.Request F)
         (w : World (FastAPI.Stats F)),
    exists new,
      calls (FastAPI.handle g r w) = calls w ++ new /\
      len new <= weight r /\
      (new = [] \/
       exists translation,
         FastAPI.th_en_translation g = Some translation /\
         Forall (call_within translation (texts_of r)) new).
Proof.
  intros F num g r w.
  destruct r as [clock request|clock request];
    cbn [FastAPI.handle weight texts_of].
  - translate_paths g request w; cbn [snd calls];
      try (exists []; rewrite app_nil_r; repeat split; [cbn; lia|auto]).
    all: eexists; split; [reflexivity|]; split; [cbn; lia|];
      right; exists translation; split; [reflexivity|];
      constructor; [|constructor];
      unfold call_within; cbn [fst snd]; rewrite T; cbn; auto.
  - pose proof (len_nonneg (FastAPI.texts request)).
    translate_batch_paths g request w; cbn [snd calls];
      try (exists []; rewrite app_nil_r; repeat split; [cbn; lia|auto]).
    + eexists; split; [reflexivity|]. split.
      * unfold calls_for. rewrite len_map. apply len_filter_le.
      * right. exists translation. split; [reflexivity|].
        apply calls_for_within.
    + eexists; split; [reflexivity|]. split.
      * unfold calls_for. rewrite len_map. apply len_filter_le.
      * right. exists translation. split; [reflexivity|].
        apply calls_for_within.
    + eexists; split; [reflexivity|]. split.
      * rewrite E, !len_app. unfold calls_for. rewrite len_map.
        pose proof (len_filter_le nonblank pre).
        pose proof (len_nonneg post).
        change (len [(t, Raises m)]) with 1.
        change (len (t :: post)) with (Z.of_nat (S (List.length post))).
        unfold len in *. lia.
      * right. exists translation. split; [reflexivity|].
        apply Forall_app. split.
        -- eapply Forall_impl; [|apply calls_for_within].
           intros c. apply call_within_incl. rewrite E.
           apply incl_appl, incl_refl.
        -- constructor; [|constructor].
           unfold call_within. cbn [fst snd]. rewrite E, Tt.
           split; [apply in_elt|auto].
Qed.

(** ** The Flask service: every path of [translate] *)

Section FlaskPaths.
Context {F : Type} `{PyNum F}.

Implicit Types (w : World (Flask.Stats F)) (data : Flask.Body).

Lemma flask_translate_missing languages clock (body : option Flask.Body) w :
  body = None \/ (exists data, body = Some data /\ Flask.q data = None) ->
  Flask.translate languages clock body w =
    (Return (Flask.ErrorJson (lit "Missing required parameter: q"), 400), w).
Proof.
  intros [->|(data & -> & Q)]; unfold Flask.translate, Flask.translate_body,
    try_except; [|rewrite Q]; reflexivity.
Qed.

Lemma flask_translate_no_model languages clock data t source_lang target_lang w :
  Flask.q data = Some t ->
  blank t = false ->
  find_language languages (Flask.get_default (Flask.source data) (lit "th"))
    = Some source_lang ->
  find_language languages (Flask.get_default (Flask.target data) (lit "en"))
    = Some target_lang ->
  get_translation source_lang (code target_lang) = None ->
  Flask.translate languages clock (Some data) w =
    (Return (Flask.ErrorJson
               (lit "No translation model available from "
                  ++ Flask.get_default (Flask.source data) (lit "th")
                  ++ lit " to "
                  ++ Flask.get_default (Flask.target data) (lit "en")), 400),
     w).
Proof.
  intros Q B S T G. unfold Flask.translate, Flask.translate_body, try_except.
  rewrite Q, truthy_strip, B. cbn [negb]. rewrite S, T, G. reflexivity.
Qed.

(** The path on which the engine is called. *)
Lemma flask_translate_model languages clock data t source_lang target_lang
    translation w :
  Flask.q data = Some t ->
  blank t = false ->
  find_language languages (Flask.get_default (Flask.source data) (lit "th"))
    = Some source_lang ->
  find_language languages (Flask.get_default (Flask.target data) (lit "en"))
    = Some target_lang ->
  get_translation source_lang (code target_lang) = Some translation ->
  Flask.translate languages clock (Some data) w =
    let source_code := Flask.get_default (Flask.source data) (lit "th") in
    let target_code := Flask.get_default (Flask.target data) (lit "en") in
    match translation t with
    | Returns translated_text =>
        (Return (Flask.TranslationJson translated_text source_code target_code t
                   (Some (Round (fsub (time_after clock) (time_before clock)) 3)),
                 200),
         {| stats := Flask.count_translation source_code target_code (stats w);
            calls := calls w ++ [(t, Returns translated_text)] |})
    | Raises message =>
        (Return (Flask.ErrorJson message, 500),
         {| stats := stats w; calls := calls w ++ [(t, Raises message)] |})
    end.
Proof.
  intros Q B S T G. unfold Flask.translate, Flask.translate_body, try_except.
  rewrite Q, truthy_strip, B. cbn [negb]. rewrite S, T, G.
  unfold bind, call_translate.
  destruct (translation t); reflexivity.
Qed.

End FlaskPaths.

(** The paths of the Flask [translate], one goal for each. *)
Ltac flask_paths languages clock body w :=
  let data := fresh "data" in
  let t := fresh "t" in
  let Q := fresh "Q" in
  let B := fresh "B" in
  let S := fresh "S" in
  let T := fresh "T" in
  let G := fresh "G" in
  let O := fresh "O" in
  let source_lang := fresh "source_lang" in
  let target_lang := fresh "target_lang" in
  let translation := fresh "translation" in
  destruct body as [data|];
  [ destruct (Flask.q data) as [t|] eqn:Q;
    [ destruct (blank t) eqn:B;
      [ rewrite (FlaskFacts.translate_echoes_blank languages clock data t w Q B)
      | destruct (find_language languages
                    (Flask.get_default (Flask.source data) (lit "th")))
          as [source_lang|] eqn:S;
        [ destruct (find_language languages
                      (Flask.get_default (Flask.target data) (lit "en")))
            as [target_lang|] eqn:T;
          [ destruct (get_translation source_lang (code target_lang))
              as [translation|] eqn:G;
            [ rewrite (flask_translate_model languages clock data t source_lang
                         target_lang translation w Q B S T G);
              cbv zeta; destruct (translation t) eqn:O
            | rewrite (flask_translate_no_model languages clock data t
                         source_lang target_lang w Q B S T G) ]
          | unfold Flask.translate, Flask.translate_body, try_except;
            rewrite Q, truthy_strip, B; cbn [negb]; rewrite S, T ]
        | unfold Flask.translate, Flask.translate_body, try_except;
          rewrite Q, truthy_strip, B; cbn [negb]; rewrite S ] ]
    | rewrite (flask_translate_missing languages clock (Some data) w)
        by (right; exists data; auto) ]
  | rewrite (flask_translate_missing languages clock None w) by (left; auto) ].

(** ** The Flask service: errors, counters and what never happens *)

(** X13: a Flask [/translate] request whose JSON body is a falsy value
    ([null], an empty object) or an object without [q] is answered with 400
    and the message naming [q]; the statistics are unchanged and the engine
    is not called. *)
Theorem flask_missing_text_is_rejected :
  forall {F : Type} `{PyNum F} languages clock (body : option Flask.Body)
         (w : World (Flask.Stats F)),
    body = None \/ (exists data, body = Some data /\ Flask.q data = None) ->
    Flask.translate languages clock body w =
      (Return (Flask.ErrorJson (lit "Missing required parameter: q"), 400), w).
Proof.
  intros F num languages clock body w M.
  apply flask_translate_missing. exact M.
Qed.

Lemma flask_missing_text_is_rejected_witness :
  Flask.translate sample_languages (float_clock 0 1)
    (Some {| Flask.q := None; Flask.source := Some (lit "th");
             Flask.target := None |}) flask_world =
    (Return (Flask.ErrorJson (lit "Missing required parameter: q"), 400),
     flask_world).
Proof.
  apply (flask_missing_text_is_rejected (F := float)).
  right. eexists. split; reflexivity.
Defined.

(** X14: when both languages of a Flask request are installed but the
    engine has no model from the source to the target, the request is
    answered with 400 and a message naming both codes; the engine's
    translate operation is not called and the statistics are unchanged. *)
Theorem flask_missing_model_is_rejected :
  forall {F : Type} `{PyNum F} languages clock data t source_lang target_lang
         (w : World (Flask.Stats F)),
    Flask.q data = Some t ->
    blank t = false ->
    let source_code := Flask.get_default (Flask.source data) (lit "th") in
    let target_code := Flask.get_default (Flask.target data) (lit "en") in
    find_language languages source_code = Some source_lang ->
    find_language languages target_code = Some target_lang ->
    get_translation source_lang (code target_lang) = None ->
    Flask.translate languages clock (Some data) w =
      (Return (Flask.ErrorJson
                 (lit "No translation model available from " ++ source_code
                    ++ lit " to " ++ target_code), 400), w).
Proof.
  intros F num languages clock data t source_lang target_lang w Q B sc tc S T G.
  apply (flask_translate_no_model languages clock data t source_lang target_lang);
    assumption.
Qed.

Lemma flask_missing_model_is_rejected_witness :
  Flask.translate sample_languages (float_clock 0 1)
    (Some (flask_body "hello" "en" "th")) flask_world =
    (Return (Flask.ErrorJson
               (lit "No translation model available from " ++ lit "en"
                  ++ lit " to " ++ lit "th"), 400), flask_world).
Proof.
  apply (flask_missing_model_is_rejected (F := float) sample_languages
           (float_clock 0 1) (flask_body "hello" "en" "th") (lit "hello")
           en_language th_language flask_world); reflexivity.
Defined.

(** X15: a Flask translation that goes through is answered with 200, the
    engine's output as [translatedText], the text as [original] and the
    codes used; it adds one to [total_translations], one to
    [thai_to_english] exactly for the pair (th, en), one to
    [english_to_thai] exactly for the pair (en, th), and leaves
    [start_time] alone. *)
Theorem flask_translation_is_counted :
  forall {F : Type} `{PyNum F} languages clock data t source_lang target_lang
         translation translated_text (w : World (Flask.Stats F)),
    Flask.q data = Some t ->
    blank t = false ->
    let source_code := Flask.get_default (Flask.source data) (lit "th") in
    let target_code := Flask.get_default (Flask.target data) (lit "en") in
    find_language languages source_code = Some source_lang ->
    find_language languages target_code = Some target_lang ->
    get_translation source_lang (code target_lang) = Some translation ->
    translation t = Returns translated_text ->
    let r := Flask.translate languages clock (Some data) w in
    let s := stats w in
    let s' := stats (snd r) in
    fst r = Return (Flask.TranslationJson translated_text source_code
                      target_code t
                      (Some (Round (fsub (time_after clock) (time_before clock))
                               3)), 200) /\
    calls (snd r) = calls w ++ [(t, Returns translated_text)] /\
    Flask.total_translations s' = Flask.total_translations s + 1 /\
    Flask.start_time s' = Flask.start_time s /\
    (source_code = lit "th" /\ target_code = lit "en" ->
     Flask.thai_to_english s' = Flask.thai_to_english s + 1 /\
     Flask.english_to_thai s' = Flask.english_to_thai s) /\
    (source_code = lit "en" /\ target_code = lit "th" ->
     Flask.thai_to_english s' = Flask.thai_to_english s /\
     Flask.english_to_thai s' = Flask.english_to_thai s + 1) /\
    (~ (source_code = lit "th" /\ target_code = lit "en") ->
     ~ (source_code = lit "en" /\ target_code = lit "th") ->
     Flask.thai_to_english s' = Flask.thai_to_english s /\
     Flask.english_to_thai s' = Flask.english_to_thai s).
Proof.
  intros F num languages clock data t source_lang target_lang translation out w
    Q B sc tc S T G O r s s'. subst r s s'.
  rewrite (flask_translate_model languages clock data t source_lang target_lang
             translation w Q B S T G).
  cbv zeta. rewrite O. subst sc tc. cbn [fst snd stats calls].
  unfold Flask.count_translation.
  cbn [Flask.total_translations Flask.thai_to_english Flask.english_to_thai
       Flask.start_time].
  do 4 (split; [reflexivity|]).
  split; [|split].
  - intros [-> ->]. split; reflexivity.
  - intros [-> ->]. split; reflexivity.
  - intros N1 N2.
    destruct (PyStr.eqb _ (lit "th") && PyStr.eqb _ (lit "en")) eqn:E.
    { apply andb_true_iff in E as [E1 E2]. apply eqb_eq in E1, E2. tauto. }
    destruct (PyStr.eqb _ (lit "en") && PyStr.eqb _ (lit "th")) eqn:E'.
    { apply andb_true_iff in E' as [E1 E2]. apply eqb_eq in E1, E2. tauto. }
    split; reflexivity.
Qed.

Lemma flask_translation_is_counted_witness :
  let r := Flask.translate sample_languages (float_clock 0 1)
             (Some (flask_body "a" "th" "en")) flask_world in
  calls (snd r) = calls flask_world ++ [(lit "a", Returns (lit "EN:a"))] /\
  Flask.total_translations (stats (snd r)) = 0 + 1 /\
  Flask.thai_to_english (stats (snd r)) = 0 + 1 /\
  Flask.english_to_thai (stats (snd r)) = 0.
Proof.
  destruct (flask_translation_is_counted (F := float) sample_languages
              (float_clock 0 1) (flask_body "a" "th" "en") (lit "a")
              th_language en_language sample_translation (lit "EN:a")
              flask_world eq_refl eq_refl eq_refl eq_refl eq_refl eq_refl)
    as (_ & C & T & _ & P & _).
  destruct (P (conj eq_refl eq_refl)) as [Th En].
  split; [exact C|]. split; [exact T|]. split; [exact Th|exact En].
Defined.

(** X16: when the engine raises on a Flask translation, the request is
    answered with 500 and the message of the exception; no counter of the
    statistics changes (the Flask service keeps no error count). *)
Theorem flask_engine_failure_is_not_counted :
  forall {F : Type} `{PyNum F} languages clock data t source_lang target_lang
         translation message (w : World (Flask.Stats F)),
    Flask.q data = Some t ->
    blank t = false ->
    find_language languages (Flask.get_default (Flask.source data) (lit "th"))
      = Some source_lang ->
    find_language languages (Flask.get_default (Flask.target data) (lit "en"))
      = Some target_lang ->
    get_translation source_lang (code target_lang) = Some translation ->
    translation t = Raises message ->
    Flask.translate languages clock (Some data) w =
      (Return (Flask.ErrorJson message, 500),
       {| stats := stats w; calls := calls w ++ [(t, Raises message)] |}).
Proof.
  intros F num languages clock data t source_lang target_lang translation
    message w Q B S T G O.
  rewrite (flask_translate_model languages clock data t source_lang target_lang
             translation w Q B S T G).
  cbv zeta. rewrite O. reflexivity.
Qed.

Lemma flask_engine_failure_is_not_counted_witness :
  Flask.translate sample_languages (float_clock 0 1)
    (Some (flask_body "boom" "th" "en")) flask_world =
    (Return (Flask.ErrorJson (lit "engine failure"), 500),
     {| stats := stats flask_world;
        calls := [(lit "boom", Raises (lit "engine failure"))] |}).
Proof.
  exact (flask_engine_failure_is_not_counted (F := float) sample_languages
           (float_clock 0 1) (flask_body "boom" "th" "en") (lit "boom")
           th_language en_language sample_translation (lit "engine failure")
           flask_world eq_refl eq_refl eq_refl eq_refl eq_refl eq_refl).
Defined.

Section FlaskInvariants.
Context {F : Type} `{PyNum F}.

Implicit Types (w : World (Flask.Stats F)).

(** One exchange. *)
Lemma flask_translate_steps languages clock body w :
  let r := Flask.translate languages clock body w in
  exists json status_code new,
    fst r = Return (json, status_code) /\
    calls (snd r) = calls w ++ new /\
    len new <= 1 /\
    (status_code = 200 \/ status_code = 400 \/ status_code = 500) /\
    (status_code = 400 -> snd r = w) /\
    (status_code = 500 -> stats (snd r) = stats w /\ len new = 1) /\
    Flask.start_time (stats (snd r)) = Flask.start_time (stats w) /\
    Flask.total_translations (stats (snd r))
      = Flask.total_translations (stats w) + len (translated_log new) /\
    Flask.thai_to_english (stats w) <= Flask.thai_to_english (stats (snd r)) /\
    Flask.english_to_thai (stats w) <= Flask.english_to_thai (stats (snd r)) /\
    (Flask.thai_to_english (stats (snd r)) - Flask.thai_to_english (stats w))
    + (Flask.english_to_thai (stats (snd r)) - Flask.english_to_thai (stats w))
      <= len (translated_log new).
Proof.
  intros r. subst r.
  flask_paths languages clock body w; cbn [fst snd stats calls].
  1, 4, 5, 6, 7, 8: eexists _, _, []; rewrite app_nil_r;
    repeat split; try reflexivity; try discriminate; cbn; auto; try lia.
  - eexists _, _, _. split; [reflexivity|]. split; [reflexivity|].
    unfold Flask.count_translation. cbn.
    repeat split; try discriminate; auto; try lia;
      repeat match goal with
             | |- context [if ?c then _ else _] => destruct c
             end; lia.
  - eexists _, _, _. split; [reflexivity|]. split; [reflexivity|].
    cbn. repeat split; try discriminate; auto; try lia.
Qed.

End FlaskInvariants.

(** X17: the Flask [translate] handler never lets an exception escape:
    every request is answered with a JSON body and the status 200, 400 or
    500.  A 400 leaves the statistics and the log of engine calls as they
    were, a 500 leaves the statistics as they were, and no request makes
    more than one engine call. *)
Theorem flask_always_answers :
  forall {F : Type} `{PyNum F} languages clock body (w : World (Flask.Stats F)),
    let r := Flask.translate languages clock body w in
    exists json status_code new,
      fst r = Return (json, status_code) /\
      (status_code = 200 \/ status_code = 400 \/ status_code = 500) /\
      calls (snd r) = calls w ++ new /\
      len new <= 1 /\
      (status_code = 400 -> snd r = w) /\
      (status_code = 500 -> stats (snd r) = stats w).
Proof.
  intros F num languages clock body w r.
  destruct (flask_translate_steps languages clock body w)
    as (json & status_code & new & R & C & L & S & S4 & S5 & _).
  exists json, status_code, new. repeat split; try assumption.
  intros X. apply S5. exact X.
Qed.

(** X18: over any sequence of Flask [/translate] exchanges, from any state,
    [start_time] never changes, [total_translations] grows by exactly the
    number of engine calls that returned, the two directional counters never
    go down, and together they grow by no more than [total_translations]
    does. *)
Theorem flask_counters_follow_the_engine_calls :
  forall {F : Type} `{PyNum F} (xs : list (Flask.Exchange F))
         (w : World (Flask.Stats F)),
    let s := stats w in
    let s' := stats (Flask.serve xs w) in
    exists new,
      calls (Flask.serve xs w) = calls w ++ new /\
      Flask.start_time s' = Flask.start_time s /\
      Flask.total_translations s'
        = Flask.total_translations s + len (translated_log new) /\
      Flask.thai_to_english s <= Flask.thai_to_english s' /\
      Flask.english_to_thai s <= Flask.english_to_thai s' /\
      (Flask.thai_to_english s' - Flask.thai_to_english s)
      + (Flask.english_to_thai s' - Flask.english_to_thai s)
        <= Flask.total_translations s' - Flask.total_translations s.
Proof.
  intros F num xs. unfold Flask.serve.
  induction xs as [|x xs IH]; intros w; cbn [fold_left].
  - exists []. rewrite app_nil_r. cbn. repeat split; lia.
  - destruct (flask_translate_steps (Flask.exchange_languages x)
                (Flask.exchange_clock x) (Flask.exchange_data x) w)
      as (json & status_code & new & _ & C & _ & _ & _ & _ & St & T & Th & En & D).
    fold (Flask.handle x w) in C, St, T, Th, En, D.
    destruct (IH (Flask.handle x w)) as (new' & C' & St' & T' & Th' & En' & D').
    exists (new ++ new'). rewrite C', C, app_assoc.
    rewrite translated_log_app, len_app.
    repeat split; try reflexivity; try lia. congruence.
Qed.

(** ** The Flask service: health and languages *)

Lemma contains_In (codes : list pystr) (c : pystr) :
  Flask.contains codes c = true <-> In c codes.
Proof.
  unfold Flask.contains. rewrite existsb_exists. split.
  - intros (x & I & E). apply eqb_eq in E. subst x. exact I.
  - intros I. exists c. split; [exact I|apply eqb_refl].
Qed.

(** The status of [/health] against the installed codes. *)
Lemma flask_health_status {F : Type} `{PyNum F} languages now
    (w : World (Flask.Stats F)) h :
  fst (Flask.health_check languages now w) = Return h ->
  (Flask.status h = lit "healthy" <->
   In (lit "th") (map code languages) /\ In (lit "en") (map code languages)) /\
  (Flask.status h = lit "degraded" <->
   ~ (In (lit "th") (map code languages) /\ In (lit "en") (map code languages))).
Proof.
  unfold Flask.health_check, bind, get, ret. cbn [fst].
  intros E. injection E as <-. cbn [Flask.status].
  pose proof (contains_In (map code languages) (lit "th")) as Th.
  pose proof (contains_In (map code languages) (lit "en")) as En.
  assert (Both : Flask.contains (map code languages) (lit "th")
                 && Flask.contains (map code languages) (lit "en") = true
                 <-> In (lit "th") (map code languages)
                     /\ In (lit "en") (map code languages))
    by (rewrite andb_true_iff; tauto).
  destruct (Flask.contains (map code languages) (lit "th")
            && Flask.contains (map code languages) (lit "en")).
  - split; split.
    + intros _. apply Both. reflexivity.
    + reflexivity.
    + discriminate.
    + intros N. exfalso. apply N, Both. reflexivity.
  - split; split.
    + discriminate.
    + intros P. apply Both in P. discriminate.
    + intros _ P. apply Both in P. discriminate.
    + reflexivity.
Qed.

(** X19: the Flask [/health] endpoint changes nothing and reports the codes
    of the installed languages; [thai_support] and [english_support] tell
    whether [th] and [en] are among them, and the status is [healthy]
    exactly when both are and [degraded] otherwise.  [/languages] lists the
    same codes, in the same order, and their number. *)
Theorem flask_health_reports_the_installed_languages :
  forall {F : Type} `{PyNum F} languages now (w : World (Flask.Stats F)),
    exists h l,
      Flask.health_check languages now w = (Return h, w) /\
      Flask.get_languages languages w = (Return l, w) /\
      Flask.installed_languages h = map code languages /\
      map fst (Flask.languages_list l) = Flask.installed_languages h /\
      map snd (Flask.languages_list l) = map name languages /\
      Flask.languages_count l = len languages /\
      (Flask.thai_support h = true <-> In (lit "th") (map code languages)) /\
      (Flask.english_support h = true <-> In (lit "en") (map code languages)) /\
      (Flask.status h = lit "healthy" <->
       In (lit "th") (map code languages) /\ In (lit "en") (map code languages)) /\
      (Flask.status h = lit "degraded" <->
       ~ (In (lit "th") (map code languages)
          /\ In (lit "en") (map code languages))).
Proof.
  intros F num languages now w.
  eexists _, _. split; [reflexivity|]. split; [reflexivity|].
  split; [reflexivity|].
  cbn [Flask.installed_languages Flask.languages_list Flask.languages_count
       Flask.thai_support Flask.english_support].
  rewrite !map_map, len_map. cbn [fst snd].
  do 3 (split; [reflexivity|]).
  split; [apply contains_In|]. split; [apply contains_In|].
  apply (flask_health_status languages now w). reflexivity.
Qed.

(** X20: when the Flask [/health] endpoint says [degraded], every
    [/translate] request with a text that is not blank and no [source] or
    [target] field (so the default pair th, en) is answered with 400 and a
    message naming [th] or [en] as not available; the engine is not called
    and the statistics are unchanged. *)
Theorem degraded_flask_rejects_default_requests :
  forall {F : Type} `{PyNum F} languages now (w0 : World (Flask.Stats F)) h,
    fst (Flask.health_check languages now w0) = Return h ->
    Flask.status h = lit "degraded" ->
    forall clock data t (w : World (Flask.Stats F)),
      Flask.q data = Some t ->
      blank t = false ->
      Flask.source data = None ->
      Flask.target data = None ->
      exists label missing,
        (label = lit "Source language " /\ missing = lit "th" \/
         label = lit "Target language " /\ missing = lit "en") /\
        Flask.translate languages clock (Some data) w =
          (Return (Flask.ErrorJson (label ++ dquote ++ missing ++ dquote
                                      ++ lit " not available"), 400), w).
Proof.
  intros F num languages now w0 h R D clock data t w Q B S T.
  apply (flask_health_status languages now w0 h R) in D.
  destruct (in_dec (list_eq_dec N.eq_dec) (lit "th") (map code languages))
    as [Th|Th].
  - exists (lit "Target language "), (lit "en"). split; [right; auto|].
    rewrite (FlaskFacts.translate_target_missing languages clock data t w Q B);
      rewrite ?S, ?T; cbn [Flask.get_default]; try assumption; [reflexivity|].
    tauto.
  - exists (lit "Source language "), (lit "th"). split; [left; auto|].
    rewrite (FlaskFacts.translate_source_missing languages clock data t w Q B);
      rewrite ?S, ?T; cbn [Flask.get_default]; try assumption. reflexivity.
Qed.

Lemma degraded_flask_rejects_default_requests_witness :
  exists label missing,
    (label = lit "Source language " /\ missing = lit "th" \/
     label = lit "Target language " /\ missing = lit "en") /\
    Flask.translate [en_language] (float_clock 0 1)
      (Some {| Flask.q := Some (lit "a"); Flask.source := None;
               Flask.target := None |}) flask_world =
      (Return (Flask.ErrorJson (label ++ dquote ++ missing ++ dquote
                                  ++ lit " not available"), 400), flask_world).
Proof.
  apply (degraded_flask_rejects_default_requests (F := float) [en_language]
           2%float flask_world _ eq_refl eq_refl (float_clock 0 1) _ (lit "a"));
    reflexivity.
Defined.

(** ** The installer of the Flask service *)

Lemma is_pair_wanted (a b : pystr) (pkg : Flask.Package) :
  Flask.is_pair a b pkg = true ->
  Flask.from_code pkg = a /\ Flask.to_code pkg = b.
Proof.
  unfold Flask.is_pair. intros E. apply andb_true_iff in E as [E1 E2].
  apply eqb_eq in E1, E2. auto.
Qed.

Lemma find_is_pair (a b : pystr) (index : list Flask.Package) pkg :
  find (Flask.is_pair a b) index = Some pkg ->
  In pkg index /\ Flask.from_code pkg = a /\ Flask.to_code pkg = b.
Proof.
  intros E. apply find_some in E as [I E]. split; [exact I|].
  apply is_pair_wanted. exact E.
Qed.

Lemma find_unwanted (a b : pystr) (index : list Flask.Package) :
  (forall pkg, In pkg index ->
               ~ (Flask.from_code pkg = a /\ Flask.to_code pkg = b)) ->
  find (Flask.is_pair a b) index = None.
Proof.
  intros N. destruct (find (Flask.is_pair a b) index) as [pkg|] eqn:E;
    [|reflexivity].
  apply find_is_pair in E as [I E]. destruct (N pkg I E).
Qed.

(** X21: the installer reports success although it installed nothing:
    when the index is fetched but offers neither a Thai-to-English nor an
    English-to-Thai package, and Thai or English is not installed, it makes
    no download and no installation, skips the test translation, and returns
    [True]. *)
Theorem installer_succeeds_with_nothing_to_install :
  forall (pm : Flask.PackageManager) (index : list Flask.Package),
    Flask.update_package_index pm = Flask.Done tt ->
    Flask.get_available_packages pm = Flask.Done index ->
    (forall pkg, In pkg index -> ~ wanted pkg) ->
    ~ In (lit "th") (map code (Flask.get_installed_languages pm [])) \/
    ~ In (lit "en") (map code (Flask.get_installed_languages pm [])) ->
    Flask.install_language_packages pm fresh_install =
      (Return true,
       {| stats := [Flask.CallUpdateIndex; Flask.CallGetAvailable];
          calls := [] |}).
Proof.
  intros pm index U A N M.
  unfold Flask.install_language_packages, Flask.install_body, try_except,
    Flask.package_call, bind, modify, get, ret.
  rewrite U, A. unfold fresh_install. cbn [stats calls app].
  rewrite !find_unwanted
    by (intros pkg I X; apply (N pkg I); unfold wanted; tauto).
  cbn [stats calls Flask.installed_paths].
  destruct (find_language (Flask.get_installed_languages pm []) (lit "th"))
    as [thai_lang|] eqn:Th; [|reflexivity].
  destruct (find_language (Flask.get_installed_languages pm []) (lit "en"))
    as [en_lang|] eqn:En; [|reflexivity].
  apply find_language_in in Th as [Th _]. apply find_language_in in En as [En _].
  tauto.
Qed.

Lemma installer_succeeds_with_nothing_to_install_witness :
  Flask.install_language_packages (sample_manager [en_de_package]) fresh_install
  = (Return true,
     {| stats := [Flask.CallUpdateIndex; Flask.CallGetAvailable];
        calls := [] |}).
Proof.
  apply (installer_succeeds_with_nothing_to_install
           (sample_manager [en_de_package]) [en_de_package] eq_refl eq_refl).
  - intros pkg [<-|[]] [[X _]|[_ X]]; discriminate.
  - left. simpl. tauto.
Defined.

(** X22: when the download of the Thai-to-English package raises, the
    installer returns [False] at once: nothing is installed, the
    English-to-Thai package is not looked at and no test translation is
    made. *)
Theorem installer_stops_at_a_failed_download :
  forall (pm : Flask.PackageManager) (index : list Flask.Package) pkg message,
    Flask.update_package_index pm = Flask.Done tt ->
    Flask.get_available_packages pm = Flask.Done index ->
    find (Flask.is_pair (lit "th") (lit "en")) index = Some pkg ->
    Flask.download pkg = Flask.Fails message ->
    Flask.install_language_packages pm fresh_install =
      (Return false,
       {| stats := [Flask.CallUpdateIndex; Flask.CallGetAvailable;
                    Flask.CallDownload pkg];
          calls := [] |}).
Proof.
  intros pm index pkg message U A E D.
  unfold Flask.install_language_packages, Flask.install_body, try_except,
    Flask.install_package, Flask.package_call, bind, modify, get, ret.
  rewrite U, A. unfold fresh_install. cbn [stats calls app]. rewrite E.
  cbn [stats calls app]. rewrite D. reflexivity.
Qed.

Lemma installer_stops_at_a_failed_download_witness :
  Flask.install_language_packages
    (sample_manager [broken_package; th_en_package]) fresh_install =
    (Return false,
     {| stats := [Flask.CallUpdateIndex; Flask.CallGetAvailable;
                  Flask.CallDownload broken_package];
        calls := [] |}).
Proof.
  exact (installer_stops_at_a_failed_download
           (sample_manager [broken_package; th_en_package])
           [broken_package; th_en_package] broken_package
           (lit "connection reset") eq_refl eq_refl eq_refl eq_refl).
Defined.

(** The installer's package calls do not depend on the test translation:
    the log after the two package steps is the final log. *)
Ltac installer_paths pm :=
  unfold Flask.install_language_packages, Flask.install_body, try_except,
    Flask.install_package, Flask.package_call, bind, modify, get, ret, raise,
    call_translate, fresh_install;
  cbn [stats calls app];
  destruct (Flask.update_package_index pm) as [[]|?] eqn:U;
    cbn [stats calls app fst snd];
  [ destruct (Flask.get_available_packages pm) as [index|?] eqn:A;
      cbn [stats calls app fst snd];
    [ destruct (find (Flask.is_pair (lit "th") (lit "en")) index)
        as [th_en|] eqn:F1; cbn [stats calls app fst snd];
      [ destruct (Flask.download th_en) as [path1|?] eqn:D1;
          cbn [stats calls app fst snd];
        [ destruct (Flask.install_from_path pm path1) as [[]|?] eqn:I1;
            cbn [stats calls app fst snd] | ] | ];
      try (destruct (find (Flask.is_pair (lit "en") (lit "th")) index)
             as [en_th|] eqn:F2; cbn [stats calls app fst snd];
           [ destruct (Flask.download en_th) as [path2|?] eqn:D2;
               cbn [stats calls app fst snd];
             [ destruct (Flask.install_from_path pm path2) as [[]|?] eqn:I2;
                 cbn [stats calls app fst snd] | ] | ])
    | ]
  | ];
  cbn [Flask.installed_paths];
  repeat match goal with
         | |- context [find_language ?l ?c] =>
             destruct (find_language l c) eqn:?; cbn [stats calls app fst snd]
         | |- context [get_translation ?a ?b] =>
             destruct (get_translation a b) eqn:?; cbn [stats calls app fst snd]
         | |- context [match ?x with Returns _ => _ | Raises _ => _ end] =>
             destruct x eqn:?; cbn [stats calls app fst snd]
         end.

(** X23: whatever the package manager does, the installer downloads only
    packages of the index that go from Thai to English or from English to
    Thai, installs only paths that such a download returned, and installs at
    most two of them. *)
Theorem installer_installs_only_what_it_downloaded :
  forall pm : Flask.PackageManager,
    let l := stats (snd (Flask.install_language_packages pm fresh_install)) in
    (forall pkg,
        In (Flask.CallDownload pkg) l ->
        wanted pkg /\
        exists index,
          Flask.get_available_packages pm = Flask.Done index /\ In pkg index) /\
    (forall path,
        In (Flask.CallInstall path) l ->
        exists pkg,
          In (Flask.CallDownload pkg) l /\ Flask.download pkg = Flask.Done path) /\
    len (Flask.installed_paths l) <= 2.
Proof.
  intros pm l. subst l.
  installer_paths pm.
  all: try apply find_is_pair in F1 as (In1 & From1 & To1).
  all: try apply find_is_pair in F2 as (In2 & From2 & To2).
  all: (split; [|split]).
  all: try (cbn; lia).
  all: intros x X; cbn [In] in X;
    repeat match goal with
           | X : _ \/ _ |- _ => destruct X as [X|X]
           end;
    try discriminate; try contradiction;
    injection X as <-.
  all: try (split; [unfold wanted; tauto
                   |eexists; split; [reflexivity|assumption]]).
  all: eexists; (split; [|eassumption]); cbn [In]; tauto.
Qed.

(** X24: when the index offers both packages and every download and
    installation goes through, the installer installs Thai-to-English
    first and English-to-Thai second; if Thai and English are then installed
    with a model between them, it runs the test translation through that
    model and returns [True] when the translation returns, [False] when it
    raises. *)
Theorem installer_installs_both_packages_in_order :
  forall (pm : Flask.PackageManager) index th_en en_th path1 path2
         thai_lang en_lang translation,
    Flask.update_package_index pm = Flask.Done tt ->
    Flask.get_available_packages pm = Flask.Done index ->
    find (Flask.is_pair (lit "th") (lit "en")) index = Some th_en ->
    find (Flask.is_pair (lit "en") (lit "th")) index = Some en_th ->
    Flask.download th_en = Flask.Done path1 ->
    Flask.download en_th = Flask.Done path2 ->
    Flask.install_from_path pm path1 = Flask.Done tt ->
    Flask.install_from_path pm path2 = Flask.Done tt ->
    let installed := Flask.get_installed_languages pm [path1; path2] in
    find_language installed (lit "th") = Some thai_lang ->
    find_language installed (lit "en") = Some en_lang ->
    get_translation thai_lang (code en_lang) = Some translation ->
    Flask.install_language_packages pm fresh_install =
      (Return (successful (Flask.test_text, translation Flask.test_text)),
       {| stats := [Flask.CallUpdateIndex; Flask.CallGetAvailable;
                    Flask.CallDownload th_en; Flask.CallInstall path1;
                    Flask.CallDownload en_th; Flask.CallInstall path2];
          calls := [(Flask.test_text, translation Flask.test_text)] |}).
Proof.
  intros pm index th_en en_th path1 path2 thai_lang en_lang translation
    U A F1 F2 D1 D2 I1 I2 installed Th En G. subst installed.
  unfold Flask.install_language_packages, Flask.install_body, try_except,
    Flask.install_package, Flask.package_call, bind, modify, get, ret, raise,
    call_translate, fresh_install.
  cbn [stats calls app]. rewrite U, A. cbn [stats calls app]. rewrite F1.
  cbn [stats calls app]. rewrite D1. cbn [stats calls app]. rewrite I1.
  cbn [stats calls app]. rewrite F2.
  cbn [stats calls app]. rewrite D2. cbn [stats calls app]. rewrite I2.
  cbn [stats calls app Flask.installed_paths]. rewrite Th, En, G.
  unfold successful. cbn [snd].
  destruct (translation Flask.test_text); reflexivity.
Qed.

Lemma installer_installs_both_packages_in_order_witness :
  let en_th_package :=
    {| Flask.from_code := lit "en"; Flask.to_code := lit "th";
       Flask.package_version := lit "1.0";
       Flask.download := Flask.Done (lit "/tmp/en_th.argosmodel") |} in
  Flask.install_language_packages
    (sample_manager [en_de_package; en_th_package; th_en_package])
    fresh_install =
    (Return true,
     {| stats := [Flask.CallUpdateIndex; Flask.CallGetAvailable;
                  Flask.CallDownload th_en_package;
                  Flask.CallInstall (lit "/tmp/th_en.argosmodel");
                  Flask.CallDownload en_th_package;
                  Flask.CallInstall (lit "/tmp/en_th.argosmodel")];
        calls := [(Flask.test_text, Returns (lit "EN:" ++ Flask.test_text))] |}).
Proof.
  intros en_th_package.
  exact (installer_installs_both_packages_in_order
           (sample_manager [en_de_package; en_th_package; th_en_package])
           [en_de_package; en_th_package; th_en_package]
           th_en_package en_th_package
           (lit "/tmp/th_en.argosmodel") (lit "/tmp/en_th.argosmodel")
           th_language en_language sample_translation
           eq_refl eq_refl eq_refl eq_refl eq_refl eq_refl eq_refl eq_refl
           eq_refl eq_refl eq_refl).
Defined.

(** ** The two services side by side *)

(** X25: with the same installed languages, a FastAPI service that
    completed [startup_event] and the Flask service hand a text that is not
    blank, sent for the default pair, to the same model of the engine.  When
    the engine returns, both answer with a success carrying its output;
    when it raises, both answer 500, FastAPI with the message prefixed by
    [Translation failed: ] and Flask with the bare message. *)
Theorem both_services_use_the_same_model :
  forall {F : Type} `{PyNum F} languages g,
    FastAPI.startup_event languages = Some g ->
    forall t clock request (wa : World (FastAPI.Stats F))
           clock' data (wb : World (Flask.Stats F)),
      blank t = false ->
      FastAPI.text request = t ->
      0 <= FastAPI.total_requests (stats wa) ->
      Flask.q data = Some t ->
      Flask.source data = None ->
      Flask.target data = None ->
      let ra := FastAPI.translate g clock request wa in
      let rb := Flask.translate languages clock' (Some data) wb in
      exists translation,
        FastAPI.th_en_translation g = Some translation /\
        calls (snd ra) = calls wa ++ [(t, translation t)] /\
        calls (snd rb) = calls wb ++ [(t, translation t)] /\
        match translation t with
        | Returns translated_text =>
            (exists response,
                fst ra = Return response /\
                FastAPI.translated response = translated_text) /\
            (exists duration,
                fst rb = Return (Flask.TranslationJson translated_text (lit "th")
                                   (lit "en") t duration, 200))
        | Raises message =>
            fst ra = Raise (mkHTTPException 500
                              (lit "Translation failed: " ++ message)) /\
            fst rb = Return (Flask.ErrorJson message, 500)
        end.
Proof.
  intros F num languages g S t clock request wa clock' data wb B Tx N Q Src Tgt
    ra rb. subst ra rb t.
  destruct (startup_event_loads_th_en languages g S)
    as (th_lang & en_lang & translation & Th & En & G & L).
  exists translation. split; [exact L|].
  rewrite (FastAPIFacts.translate_nonblank g translation) by assumption.
  rewrite (flask_translate_model languages clock' data (FastAPI.text request)
             th_lang en_lang translation wb Q B)
    by (rewrite ?Src, ?Tgt; assumption).
  cbv zeta. rewrite Src, Tgt. cbn [Flask.get_default].
  replace (FastAPI.total_requests (stats wa) + 1 =? 0) with false
    by (symmetry; apply Z.eqb_neq; lia).
  destruct (translation (FastAPI.text request)) as [out|message];
    cbn [fst snd calls].
  - split; [reflexivity|]. split; [reflexivity|].
    split; eexists; [split|]; reflexivity.
  - split; [reflexivity|]. split; [reflexivity|]. split; reflexivity.
Qed.

Lemma both_services_use_the_same_model_witness :
  let ra := FastAPI.translate sample_globals (float_clock 0 1)
              (request_of "a" "th" "en") fastapi_world in
  let rb := Flask.translate sample_languages (float_clock 0 1)
              (Some {| Flask.q := Some (lit "a"); Flask.source := None;
                       Flask.target := None |}) flask_world in
  calls (snd ra) = [(lit "a", Returns (lit "EN:a"))] /\
  calls (snd rb) = [(lit "a", Returns (lit "EN:a"))].
Proof.
  intros ra rb.
  destruct (both_services_use_the_same_model (F := float) sample_languages
              sample_globals eq_refl (lit "a") (float_clock 0 1)
              (request_of "a" "th" "en") fastapi_world (float_clock 0 1)
              {| Flask.q := Some (lit "a"); Flask.source := None;
                 Flask.target := None |} flask_world eq_refl eq_refl)
    as (translation & L & Ca & Cb & _); try reflexivity; try apply Z.le_refl.
  injection L as <-. split; [exact Ca|exact Cb].
Defined.

(** ** The running mean in the arithmetic of the service *)

Lemma incremental_mean_from {F : Type} `{PyNum F} (g : FastAPI.Globals)
    (l : list (Clock F * FastAPI.TranslateRequest)) :
  forall w : World (FastAPI.Stats F),
    all_succeed g (singles l) w = true ->
    FastAPI.average_time_ms (stats (FastAPI.serve g (singles l) w))
    = incremental_mean (FastAPI.average_time_ms (stats w))
        (FastAPI.total_requests (stats w)) (latencies l).
Proof.
  induction l as [|[clock request] l IH]; intros w A; [reflexivity|].
  cbn [singles map all_succeed fst snd] in A.
  apply andb_true_iff in A as [S A].
  destruct (translate_succeeds g clock request w S) as [_ E].
  change (FastAPI.serve g (singles ((clock, request) :: l)) w)
    with (FastAPI.serve g (singles l)
            (FastAPI.handle g (FastAPI.PostTranslate clock request) w)).
  rewrite (IH _ A), E. unfold stats_after_translation.
  cbn [FastAPI.average_time_ms FastAPI.total_requests FastAPI.set_average
       FastAPI.add_characters FastAPI.add_requests latencies map
       incremental_mean fst].
  replace (FastAPI.total_requests (stats w) + 1 - 1)
    with (FastAPI.total_requests (stats w)) by lia.
  reflexivity.
Qed.

(** X26: in the arithmetic the service computes with, binary64 included,
    the running mean after a sequence of successful single-translation
    requests served from reset statistics is the incremental formula
    [(mean * n + sample) / (n + 1)] applied to the observed latencies in
    order, starting from 0; it depends on nothing else in the requests, and
    the request count is their number. *)
Theorem running_mean_is_the_incremental_mean :
  forall {F : Type} `{PyNum F} (g : FastAPI.Globals)
         (l : list (Clock F * FastAPI.TranslateRequest)),
    all_succeed g (singles l) FastAPI.reset_world = true ->
    let s := stats (FastAPI.serve g (singles l) FastAPI.reset_world) in
    FastAPI.total_requests s = len l /\
    FastAPI.average_time_ms s = incremental_mean (of_int 0) 0 (latencies l).
Proof.
  intros F num g l A s. subst s. split.
  - rewrite (total_requests_after_successes g l _ A). reflexivity.
  - apply (incremental_mean_from g l FastAPI.reset_world A).
Qed.

Lemma running_mean_is_the_incremental_mean_witness :
  let s := stats (FastAPI.serve sample_globals (singles eight_requests)
                    fastapi_world) in
  FastAPI.total_requests s = 8 /\
  FastAPI.average_time_ms s
  = incremental_mean 0%float 0
      [1000; 6000; 4000; 7000; 1000; 2000; 9000; 2000]%float.
Proof.
  exact (running_mean_is_the_incremental_mean (F := float) sample_globals
           eight_requests eq_refl).
Defined.
